(** * render_react/renderer.py: view decorators and generated-file sync

    A shallow embedding of [src/render_react/renderer.py].  Python [str]
    values are [string]s (one [ascii] per code point, so the Latin-1 range),
    the filesystem is a finite map from absolute paths to nodes, and the
    functions that touch the disk or raise live in a small state-and-error
    monad that also records every system call and log line they issue. *)

From Stdlib Require Import Ascii String.
From stdpp Require Import base option strings list gmap.

Local Open Scope string_scope.
Local Open Scope list_scope.

(** ** Python [str] operations used by the renderer *)

Module PyStr.

Definition LF : ascii := "010"%char.
Definition CR : ascii := "013"%char.

Definition code (c : ascii) : nat := nat_of_ascii c.

(** [str.isspace] on the code points below 256: TAB..CR, FS..US, space,
    NEL and the no-break space. *)
Definition is_space (c : ascii) : bool :=
  let n := code c in
  ((9 <=? n)%nat && (n <=? 13)%nat) || ((28 <=? n)%nat && (n <=? 32)%nat)
  || (n =? 133)%nat || (n =? 160)%nat.

Fixpoint lstrip (s : string) : string :=
  match s with
  | String c r => if is_space c then lstrip r else s
  | EmptyString => EmptyString
  end.

Fixpoint rstrip (s : string) : string :=
  match s with
  | String c r =>
      match rstrip r with
      | EmptyString => if is_space c then EmptyString else String c EmptyString
      | r' => String c r'
      end
  | EmptyString => EmptyString
  end.

(** [s.strip()] *)
Definition strip (s : string) : string := rstrip (lstrip s).

(** What a text-mode [read()] returns for stored text: with the default
    [newline=None] every CR LF pair and every lone CR comes back as LF. *)
Fixpoint universal_newlines (s : string) : string :=
  match s with
  | String c r =>
      if Ascii.eqb c CR then
        match r with
        | String d r' =>
            if Ascii.eqb d LF then String LF (universal_newlines r')
            else String LF (universal_newlines r)
        | EmptyString => String LF EmptyString
        end
      else String c (universal_newlines r)
  | EmptyString => EmptyString
  end.

Fixpoint has_cr (s : string) : bool :=
  match s with
  | String c r => Ascii.eqb c CR || has_cr r
  | EmptyString => false
  end.

(** [s.split(".")] *)
Fixpoint split_dot_aux (cur : string) (s : string) : list string :=
  match s with
  | String c r =>
      if Ascii.eqb c "."%char then String.rev cur :: split_dot_aux EmptyString r
      else split_dot_aux (String c cur) r
  | EmptyString => [String.rev cur]
  end.

Definition split_dot (s : string) : list string := split_dot_aux EmptyString s.

(** ["/".join(l)] *)
Fixpoint join_slash (l : list string) : string :=
  match l with
  | [] => EmptyString
  | [x] => x
  | x :: r => x +:+ "/" +:+ join_slash r
  end.

(** Does a dot occur in the rest of the current line? *)
Fixpoint dot_ahead (s : string) : bool :=
  match s with
  | String c r =>
      if Ascii.eqb c LF then false
      else if Ascii.eqb c "."%char then true
      else dot_ahead r
  | EmptyString => false
  end.

(** [re.sub(r".*\.", "", s)]: the greedy pattern matches, within a line,
    everything up to and including the last dot of that line. *)
Fixpoint re_sub_upto_last_dot (s : string) : string :=
  match s with
  | String c r =>
      if Ascii.eqb c LF then String c (re_sub_upto_last_dot r)
      else if Ascii.eqb c "."%char || dot_ahead r then re_sub_upto_last_dot r
      else String c (re_sub_upto_last_dot r)
  | EmptyString => EmptyString
  end.

Fixpoint last_char (s : string) : option ascii :=
  match s with
  | String c EmptyString => Some c
  | String _ r => last_char r
  | EmptyString => None
  end.

Fixpoint is_prefix (p s : string) : bool :=
  match p, s with
  | EmptyString, _ => true
  | String a p', String b s' => Ascii.eqb a b && is_prefix p' s'
  | String _ _, EmptyString => false
  end.

End PyStr.

(** ** The filesystem, exceptions and the effect monad *)

Module Fs.

(** An absolute, normalised path: its components below the root.  The
    model has no symbolic links, so [Path.resolve()] is the identity. *)
Abbreviation path := (list string).

Inductive node : Type :=
| File (content : string)
| Dir.

Abbreviation filesystem := (gmap (list string) node).

(** [Path.parent] *)
Definition parent (p : path) : path := removelast p.

(** [str(path)] *)
Definition path_str (p : path) : string := "/" +:+ PyStr.join_slash p.

Inductive exn : Type :=
| FileNotFoundError
| IsADirectoryError
| NotADirectoryError
| FileExistsError
| OSError_ENOTEMPTY
| AssertionError (msg : string)
| TypeError (msg : string)
| ExternalError (msg : string).

(** [except IOError]: [IOError] is [OSError], the base of every
    filesystem exception above. *)
Definition is_IOError (e : exn) : bool :=
  match e with
  | FileNotFoundError | IsADirectoryError | NotADirectoryError
  | FileExistsError | OSError_ENOTEMPTY => true
  | AssertionError _ | TypeError _ | ExternalError _ => false
  end.

Inductive result (A : Type) : Type :=
| Ok (a : A)
| Raise (e : exn).
Arguments Ok {A} a.
Arguments Raise {A} e.

(** What a run leaves behind for an observer: calls on the filesystem,
    log lines and template renderings, in the order they happen. *)
Inductive event : Type :=
| EvExists (p : path)
| EvRead (p : path)
| EvWrite (p : path) (data : string)
| EvMkdir (p : path)
| EvUnlink (p : path)
| EvIterdir (p : path)
| EvRmdir (p : path)
| EvLog (msg : string) (kw : list (string * string))
| EvRender (template : string).

Definition is_write (e : event) : bool :=
  match e with EvWrite _ _ => true | _ => false end.

Definition is_mutation (e : event) : bool :=
  match e with
  | EvWrite _ _ | EvMkdir _ | EvUnlink _ | EvRmdir _ => true
  | _ => false
  end.

Definition count_writes (t : list event) : nat :=
  length (List.filter is_write t).

Record outcome (A : Type) : Type := Outcome {
  value : result A;
  disk : filesystem;
  trace : list event
}.
Arguments Outcome {A} value disk trace.
Arguments value {A} o.
Arguments disk {A} o.
Arguments trace {A} o.

Definition io (A : Type) : Type := filesystem → outcome A.

Definition io_ret {A} (a : A) : io A := λ fs, Outcome (Ok a) fs [].

Definition io_bind {A B} (k : A → io B) (m : io A) : io B :=
  λ fs,
    let o := m fs in
    match value o with
    | Ok a =>
        let o' := k a (disk o) in
        Outcome (value o') (disk o') (trace o ++ trace o')
    | Raise e => Outcome (Raise e) (disk o) (trace o)
    end.

#[global] Instance io_mret : MRet io := @io_ret.
#[global] Instance io_mbind : MBind io := @io_bind.

Definition raise {A} (e : exn) : io A := λ fs, Outcome (Raise e) fs [].

Definition emit (e : event) : io unit := λ fs, Outcome (Ok ()) fs [e].

(** [try: m  except IOError: h] *)
Definition try_except_IOError {A} (m : io A) (h : io A) : io A :=
  λ fs,
    let o := m fs in
    match value o with
    | Ok a => o
    | Raise e =>
        if is_IOError e then
          let o' := h (disk o) in
          Outcome (value o') (disk o') (trace o ++ trace o')
        else o
    end.

(** The entries of directory [d]. *)
Definition children (d : path) (fs : filesystem) : list path :=
  List.filter (λ p, bool_decide (p ≠ d ∧ parent p = d)) (map_to_list fs).*1.

(** The error for a path that does not name anything. *)
Definition ENOENT_or_ENOTDIR (fs : filesystem) (p : path) : exn :=
  match fs !! parent p with
  | Some (File _) => NotADirectoryError
  | _ => FileNotFoundError
  end.

(** [os.path.exists(p)] *)
Definition exists_ (p : path) : io bool :=
  λ fs, Outcome (Ok (bool_decide (is_Some (fs !! p)))) fs [EvExists p].

(** [with p.open() as fh: fh.read()], text mode *)
Definition read_text (p : path) : io string :=
  λ fs,
    match fs !! p with
    | Some (File c) => Outcome (Ok (PyStr.universal_newlines c)) fs [EvRead p]
    | Some Dir => Outcome (Raise IsADirectoryError) fs [EvRead p]
    | None => Outcome (Raise (ENOENT_or_ENOTDIR fs p)) fs [EvRead p]
    end.

(** [with p.open("w") as fh: fh.write(data)]; on POSIX a text-mode write
    stores [data] as it is. *)
Definition write_text (p : path) (data : string) : io unit :=
  λ fs,
    match fs !! p with
    | Some (File _) => Outcome (Ok ()) (<[p := File data]> fs) [EvWrite p data]
    | Some Dir => Outcome (Raise IsADirectoryError) fs [EvWrite p data]
    | None =>
        match fs !! parent p with
        | Some Dir => Outcome (Ok ()) (<[p := File data]> fs) [EvWrite p data]
        | _ => Outcome (Raise (ENOENT_or_ENOTDIR fs p)) fs [EvWrite p data]
        end
    end.

(** [d.mkdir(exist_ok=True)], without [parents=True] *)
Definition mkdir_exist_ok (d : path) : io unit :=
  λ fs,
    match fs !! d with
    | Some Dir => Outcome (Ok ()) fs [EvMkdir d]
    | Some (File _) => Outcome (Raise FileExistsError) fs [EvMkdir d]
    | None =>
        match fs !! parent d with
        | Some Dir => Outcome (Ok ()) (<[d := Dir]> fs) [EvMkdir d]
        | _ => Outcome (Raise (ENOENT_or_ENOTDIR fs d)) fs [EvMkdir d]
        end
    end.

(** [p.unlink()] *)
Definition unlink (p : path) : io unit :=
  λ fs,
    match fs !! p with
    | Some (File _) => Outcome (Ok ()) (delete p fs) [EvUnlink p]
    | Some Dir => Outcome (Raise IsADirectoryError) fs [EvUnlink p]
    | None => Outcome (Raise (ENOENT_or_ENOTDIR fs p)) fs [EvUnlink p]
    end.

(** [d.iterdir()], consumed *)
Definition iterdir (d : path) : io (list path) :=
  λ fs,
    match fs !! d with
    | Some Dir => Outcome (Ok (children d fs)) fs [EvIterdir d]
    | Some (File _) => Outcome (Raise NotADirectoryError) fs [EvIterdir d]
    | None => Outcome (Raise (ENOENT_or_ENOTDIR fs d)) fs [EvIterdir d]
    end.

(** [d.rmdir()] *)
Definition rmdir (d : path) : io unit :=
  λ fs,
    match fs !! d with
    | Some Dir =>
        match children d fs with
        | [] => Outcome (Ok ()) (delete d fs) [EvRmdir d]
        | _ :: _ => Outcome (Raise OSError_ENOTEMPTY) fs [EvRmdir d]
        end
    | Some (File _) => Outcome (Raise NotADirectoryError) fs [EvRmdir d]
    | None => Outcome (Raise (ENOENT_or_ENOTDIR fs d)) fs [EvRmdir d]
    end.

(** [any(xs)] over a sequence of [Path] objects, which are all truthy. *)
Definition any_path (xs : list path) : bool :=
  match xs with [] => false | _ :: _ => true end.

End Fs.

(** ** Python values, handlers and the collaborators of the module *)

Module Py.

Unset Elimination Schemes.
Inductive pyvalue : Type :=
| PyNone
| PyBool (b : bool)
| PyInt (z : Z)
| PyStr (s : string)
| PyList (l : list pyvalue)
| PyTuple (l : list pyvalue)
| PyDict (items : list (string * pyvalue))
| PyObject (cls : string) (fields : list (string * pyvalue)).
Set Elimination Schemes.

(** [isinstance(v, dict)] *)
Definition isinstance_dict (v : pyvalue) : bool :=
  match v with PyDict _ => true | _ => false end.

(** What [typing.get_type_hints] can report for a return annotation. *)
Inductive pytype : Type :=
| NoneType
| AttrsClass (name : string) (attrs_attrs : list string)
| PlainType (name : string).

(** [rt == NoneType], where [rt] is the Python [None] for a handler
    without a return annotation. *)
Definition eq_NoneType (rt : option pytype) : bool :=
  match rt with Some NoneType => true | _ => false end.

(** [getattr(rt, "__attrs_attrs__", False)]: the attribute tuple of an
    attrs class, and the default [False] (here [None]) for anything else. *)
Definition getattr_attrs_attrs (rt : option pytype) : option (list string) :=
  match rt with
  | Some (AttrsClass _ fields) => Some fields
  | _ => None
  end.

(** Truthiness of that result: a non-empty tuple. *)
Definition attrs_truthy (a : option (list string)) : bool :=
  match a with Some (_ :: _) => true | _ => false end.

(** The ambient request: [flask.request.blueprint], [flask.request.endpoint]
    and [flask.g.context] when it is set. *)
Record request : Type := Request {
  blueprint : option string;
  endpoint : option string;
  g_context : option (list (string * pyvalue))
}.

(** A view function: [__module__], [__name__], the ["return"] entry of its
    type hints, and its body. *)
Record view_function : Type := ViewFunction {
  fn_module : string;
  fn_name : string;
  fn_return : option pytype;
  fn_call : request → Fs.io pyvalue
}.

(** [src.settings] *)
Record Settings : Type := MkSettings {
  ENVIRONMENT : string;
  in_dev_environment : bool
}.

(** [src.app.app] *)
Record App : Type := MkApp { root_path : Fs.path }.

(** The two objects [generate_interfaces] returns, as the renderer sees
    them: the truth value of the imports and what [render()] yields. *)
Record ts_imports : Type := TsImports {
  imports_truthy : bool;
  imports_render : string
}.

Record ts_interfaces : Type := TsInterfaces { interfaces_render : string }.

(** [s.replace(".", "-")] *)
Fixpoint replace_dot_dash (s : string) : string :=
  match s with
  | String c r =>
      String (if Ascii.eqb c "."%char then "-"%char else c) (replace_dot_dash r)
  | EmptyString => EmptyString
  end.

(** Keyword arguments built from several [**] mappings: a repeated keyword
    is a [TypeError]. *)
Definition merge_kwargs (a b : list (string * pyvalue))
  : Fs.io (list (string * pyvalue)) :=
  if bool_decide (NoDup ((a ++ b).*1)) then mret (a ++ b)
  else Fs.raise (Fs.TypeError "got multiple values for keyword argument").

End Py.

(** ** The renderer *)

Module Renderer.
Import Fs Py.

Section Renderer.

(** Module-level names the file imports. *)
Variable settings : Settings.
Variable app : App.

(** [src.apis.types.generate_interfaces(type, name=..., default_export=...)],
    which may raise on a type it cannot reflect. *)
Variable generate_interfaces :
  option pytype → string → bool → result (ts_imports * ts_interfaces).

(** [flask.render_template(name, **context)] *)
Variable render_template : string → list (string * pyvalue) → result string.

(** [converter.unstructure] *)
Variable unstructure : pyvalue → result pyvalue.

(** [api_route_type_manager.get_url_map()] *)
Variable url_map : pyvalue.

Definition lift {A} (r : result A) : io A :=
  match r with Ok a => mret a | Raise e => raise e end.

(** Modelled from the spec: [src.utils.unwrap] is not in the sources; a
    missing blueprint or endpoint is a fatal misuse that fails loudly. *)
Definition unwrap {A} (o : option A) : io A :=
  match o with
  | Some a => mret a
  | None => raise (ExternalError "unwrap: unexpected None")
  end.

Definition flask_render_template (template : string)
    (context : list (string * pyvalue)) : io string :=
  emit (EvRender template) ;; lift (render_template template context).

(** [log.info(msg, **kw)] *)
Definition log_info (msg : string) (kw : list (string * string)) : io unit :=
  emit (EvLog msg kw).

Definition _build_render_context_for_base_template (req : request)
  : io (list (string * pyvalue)) :=
  b ← unwrap (blueprint req);
  let blueprint_id := replace_dot_dash b in
  let html_classes := [PyStr ("blueprint-" +:+ blueprint_id)] in
  e ← unwrap (endpoint req);
  mret [ ("html_classes", PyList html_classes);
         ("html_id", PyStr ("endpoint-" +:+ replace_dot_dash e));
         ("is_development", PyBool (in_dev_environment settings)) ].

Definition response_headers : pyvalue :=
  PyDict [("Content-Type", PyStr "text/html; charset=utf-8")].

(** [render_html(template)(f)]: the function [wrapped]. *)
Definition render_html_wrapped (self_template : option string)
    (f : view_function) (req : request) : io pyvalue :=
  response ← fn_call f req;
  match response with
  | PyDict items =>
      let template :=
        match self_template with
        | Some t => t
        | None =>
            let directory := PyStr.join_slash (drop 2 (PyStr.split_dot (fn_module f))) in
            "/" +:+ directory +:+ "/" +:+ fn_name f +:+ ".jinja2"
        end in
      log_info ("Looking for " +:+ template +:+ "...") [] ;;
      base ← _build_render_context_for_base_template req;
      kw ← merge_kwargs items base;
      kw' ← merge_kwargs kw (default [] (g_context req));
      out ← flask_render_template template kw';
      mret (PyTuple [PyStr out; PyInt 200; response_headers])
  | _ => mret response
  end.

(** The state a [render_react] instance holds after [__call__]. *)
Record render_react : Type := RenderReact {
  template : string;
  view : view_function;
  return_type : option pytype;
  module : string;
  name : string
}.

Definition generated_header : string :=
  "// This file is generated by @render_react in admin, changes will be overwritten".

Definition NL : string := String PyStr.LF EmptyString.

(** The string assembled from what [generate_interfaces] returned. *)
Definition type_file_contents (typescript_imports : ts_imports)
    (typescript_interfaces : ts_interfaces) : string :=
  let export_string := generated_header +:+ NL +:+ NL in
  let export_string :=
    if imports_truthy typescript_imports
    then (export_string +:+ imports_render typescript_imports) +:+ NL
    else export_string in
  let export_string := export_string +:+ interfaces_render typescript_interfaces in
  PyStr.strip export_string +:+ NL.

Definition _generate_typescript_type_file_contents (self : render_react)
  : io string :=
  r ← lift (generate_interfaces (return_type self) "PageProps" true);
  mret (type_file_contents r.1 r.2).

Definition react_page_file_path (module endpoint : string) : path :=
  (root_path app ++ ["js"; "template"; module; endpoint +:+ ".tsx"]).

Definition template_path : path :=
  (root_path app ++ ["template"; "render_react.template"]).

Definition typescript_file_path (module endpoint : string) : path :=
  (root_path app ++ ["js"; "template"; module; endpoint +:+ ".type.ts"]).

Definition log_fields (module endpoint : string) (p : path)
  : list (string * string) :=
  [("module", module); ("endpoint", endpoint); ("filename", path_str p)].

Definition _write_react_page_file (module endpoint : string) : io unit :=
  if negb (in_dev_environment settings) then mret ()
  else
    let p := react_page_file_path module endpoint in
    found ← exists_ p;
    if negb found then
      log_info "Creating new react page for this endpoint"
               (log_fields module endpoint p) ;;
      template_file_content ← read_text template_path;
      mkdir_exist_ok (parent p) ;;
      write_text p template_file_content
    else mret ().

(** The part of [_write_typescript_file] after the existing content has
    been read: compare, then write or remove.  [if type_data:] holds for a
    non-empty string, and fails for [None] and for the empty string. *)
Definition compare_and_sync (module endpoint : string)
    (type_data existing_type_data : option string) : io unit :=
  let p := typescript_file_path module endpoint in
  if bool_decide (type_data ≠ existing_type_data) then
    match type_data with
    | Some (String c r) =>
        log_info "writing new type data" (log_fields module endpoint p) ;;
        mkdir_exist_ok (parent p) ;;
        write_text p (String c r)
    | _ =>
        log_info "removing type data" (log_fields module endpoint p) ;;
        unlink p ;;
        entries ← iterdir (parent p);
        if any_path entries then rmdir (parent p) else mret ()
    end
  else mret ().

Definition _write_typescript_file (module endpoint : string)
    (type_data : option string) : io unit :=
  if bool_decide (ENVIRONMENT settings ≠ "development") then mret ()
  else
    let p := typescript_file_path module endpoint in
    existing_type_data ←
      try_except_IOError (s ← read_text p; mret (Some s)) (mret None);
    compare_and_sync module endpoint type_data existing_type_data.

Definition assertion_message (self : render_react) : string :=
  "Endpoint " +:+ module self +:+ "." +:+ name self
  +:+ " missing attrs return annotation (which is required by"
  +:+ "@render_react).".

(** The [assert] is executed, as it is unless the interpreter runs with
    optimisation switched on. *)
Definition _write_typescript_type_file (self : render_react) : io unit :=
  if eq_NoneType (return_type self) then mret ()
  else if negb (attrs_truthy (getattr_attrs_attrs (return_type self))) then
    raise (AssertionError (assertion_message self))
  else
    _write_react_page_file (module self) (name self) ;;
    type_data ← _generate_typescript_type_file_contents self;
    _write_typescript_file (module self) (name self) (Some type_data).

(** [render_react()(view_function)]: sets up the instance, syncs the files
    and hands back the instance whose [wrapped] serves requests. *)
Definition render_react_call (view_function : view_function) : io render_react :=
  let self :=
    {| template := "render_react.jinja2";
       view := view_function;
       return_type := fn_return view_function;
       module := PyStr.re_sub_upto_last_dot (fn_module view_function);
       name := fn_name view_function |} in
  _write_typescript_type_file self ;;
  mret self.

(** The function [wrapped] of a decorated React endpoint. *)
Definition render_react_wrapped (self : render_react) (req : request)
  : io pyvalue :=
  response ← fn_call (view self) req;
  let render_react_context :=
    [ ("react_entrypoint_filename",
       PyStr ("js/template/" +:+ module self +:+ "/" +:+ name self +:+ ".tsx"));
      ("base_data", PyDict [("urlMap", url_map)]) ] in
  props ← lift (unstructure response);
  base ← _build_render_context_for_base_template req;
  kw ← merge_kwargs [("__render_react_response", response); ("props", props)] base;
  kw' ← merge_kwargs kw render_react_context;
  html ← flask_render_template (template self) kw';
  mret (PyTuple [PyStr html; PyInt 200; response_headers]).

End Renderer.

End Renderer.

(** ** The properties, stated on the model *)

Module Claims.
Import Fs Py Renderer.

(** The sync wrote the file once, and a second call with the same data
    leaves the disk alone and writes nothing. *)
Definition sync_twice_writes_once (settings : Settings) (app : App)
    (module endpoint type_data : string) (fs : filesystem) : Prop :=
  let first := _write_typescript_file settings app module endpoint (Some type_data) fs in
  let second :=
    _write_typescript_file settings app module endpoint (Some type_data) (disk first) in
  value first = Ok () →
  count_writes (trace first) = 1 →
  value second = Ok ()
  ∧ disk second = disk first
  ∧ List.filter is_mutation (trace second) = []
  ∧ count_writes (trace first ++ trace second) = 1.

(** What the sync takes the existing content to be: the text read back, or
    nothing when reading raised. *)
Definition existing_content (fs : filesystem) (p : path) : option string :=
  match fs !! p with
  | Some (File c) => Some (PyStr.universal_newlines c)
  | _ => None
  end.

(** Neither flag of the settings says development. *)
Definition not_development (settings : Settings) : Prop :=
  ENVIRONMENT settings ≠ "development" ∧ in_dev_environment settings = false.

(** A string that ends in exactly one newline: a body whose last character
    is not a newline (indeed not white space), then one LF. *)
Definition ends_in_one_newline (s : string) : Prop :=
  ∃ body c, s = body +:+ NL
            ∧ PyStr.last_char body = Some c
            ∧ PyStr.is_space c = false.

End Claims.

(** ** Concrete settings, disks and handlers *)

Module Examples.
Import Fs Py Renderer.

Definition development : Settings := MkSettings "development" true.
Definition production : Settings := MkSettings "production" false.

Definition app : App := MkApp ["srv"; "app"].

Definition pages : path := ["srv"; "app"; "js"; "template"].

(** The project tree before anything was generated. *)
Definition fresh_disk : filesystem :=
  list_to_map
    [ ([], Dir); (["srv"], Dir); (["srv"; "app"], Dir);
      (["srv"; "app"; "js"], Dir); (pages, Dir);
      (["srv"; "app"; "template"], Dir);
      (["srv"; "app"; "template"; "render_react.template"],
       File "export default function Page() { return null; }") ].

(** A type file left over from an earlier schema, alone in its directory. *)
Definition stale_disk : filesystem :=
  <[ (pages ++ ["home"; "index.type.ts"]) := File "export default interface PageProps {}" ]>
    (<[ (pages ++ ["home"]) := Dir ]> fresh_disk).

(** The same, with a hand-written component next to the type file. *)
Definition stale_disk_with_component : filesystem :=
  <[ (pages ++ ["home"; "index.tsx"]) := File "export default function Home() {}" ]>
    stale_disk.

Definition no_context : request := Request (Some "home") (Some "home.index") None.

Definition handler (rt : option pytype) (response : pyvalue) : view_function :=
  ViewFunction "src.views.home" "index" rt (λ _, mret response).

Definition PreferencesProps : pytype := AttrsClass "PreferencesProps" ["max_widgets"].

(** An introspector for the example class. *)
Definition generate_interfaces (rt : option pytype) (name : string)
    (default_export : bool) : result (ts_imports * ts_interfaces) :=
  match rt with
  | Some (AttrsClass _ fields) =>
      Ok (TsImports false "",
          TsInterfaces
            ("export default interface " +:+ name +:+ " {" +:+ NL
             +:+ "  max_widgets: number;" +:+ NL +:+ "}" +:+ NL))
  | _ => Raise (ExternalError "not an attrs class")
  end.

Definition render_template (template : string)
    (context : list (string * pyvalue)) : result string :=
  Ok ("<html>" +:+ template +:+ "</html>").

Definition unstructure (v : pyvalue) : result pyvalue := Ok v.

(** The handler of the class docstring, and its instance once decorated. *)
Definition preferences : view_function :=
  handler (Some PreferencesProps)
          (PyObject "PreferencesProps" [("max_widgets", PyInt 4)]).

Definition preferences_instance : render_react :=
  RenderReact "render_react.jinja2" preferences (Some PreferencesProps) "home" "index".

(** A handler that answers with a redirect it built itself. *)
Definition redirect : pyvalue :=
  PyObject "Response" [("status", PyInt 302); ("location", PyStr "/login")].

Definition redirecting : view_function := handler None redirect.

Definition type_path : path := pages ++ ["home"; "index.type.ts"].
Definition component_path : path := pages ++ ["home"; "index.tsx"].
Definition home_dir : path := pages ++ ["home"].

(** Type data with a carriage return in it. *)
Definition cr_data : string := String "a" (String PyStr.CR (String "b" EmptyString)).

End Examples.

(** ** Vocabulary for further properties of the module *)

Module Observations.
Import Fs Py Renderer.

(** [".".join(l)] *)
Fixpoint join_dot (l : list string) : string :=
  match l with
  | [] => EmptyString
  | [x] => x
  | x :: r => x +:+ "." +:+ join_dot r
  end.

Fixpoint has_dot (s : string) : bool :=
  match s with
  | String c r => Ascii.eqb c "."%char || has_dot r
  | EmptyString => false
  end.

Fixpoint has_lf (s : string) : bool :=
  match s with
  | String c r => Ascii.eqb c PyStr.LF || has_lf r
  | EmptyString => false
  end.

(** A component of a dotted name: no dot and no line break in it. *)
Definition plain_component (s : string) : Prop :=
  has_dot s = false ∧ has_lf s = false.

(** A string of white space only ([s.strip() == ""]). *)
Fixpoint all_space (s : string) : bool :=
  match s with
  | String c r => PyStr.is_space c && all_space r
  | EmptyString => true
  end.

(** A call on the filesystem, as opposed to a log line or a rendering. *)
Definition is_fs_call (e : event) : bool :=
  match e with
  | EvLog _ _ | EvRender _ => false
  | _ => true
  end.

(** A call that takes something off the disk. *)
Definition is_removal (e : event) : bool :=
  match e with
  | EvUnlink _ | EvRmdir _ => true
  | _ => false
  end.

(** A computation that leaves the disk alone and calls nothing on it. *)
Definition quiet {A} (m : io A) : Prop :=
  ∀ fs, disk (m fs) = fs ∧ Forall (λ e, is_fs_call e = false) (trace (m fs)).

(** A file can be written at [p] after one [mkdir] of its directory: [p]
    is not a directory, and its directory is there or else the directory
    above it is. *)
Definition can_hold (fs : filesystem) (p : path) : Prop :=
  fs !! p ≠ Some Dir
  ∧ (fs !! parent p = Some Dir
     ∨ (fs !! parent p = None ∧ fs !! parent (parent p) = Some Dir)).

(** From [fs] to [fs'] nothing but the file [p] changed, except that the
    directory of [p] may have been created. *)
Definition touches_only (p : path) (fs fs' : filesystem) : Prop :=
  ∀ q, q ≠ p →
       fs' !! q = fs !! q
       ∨ (q = parent p ∧ fs !! q = None ∧ fs' !! q = Some Dir).

(** The instance [render_react.__call__] sets up for a view function. *)
Definition instance_of (f : view_function) : render_react :=
  {| template := "render_react.jinja2";
     view := f;
     return_type := fn_return f;
     module := PyStr.re_sub_upto_last_dot (fn_module f);
     name := fn_name f |}.

(** The keyword names the base template context contributes. *)
Definition base_context_keys : list string :=
  ["html_classes"; "html_id"; "is_development"].

(** The context for [base.jinja2] in a request of blueprint [b] and
    endpoint [e]. *)
Definition base_context (settings : Settings) (b e : string)
  : list (string * pyvalue) :=
  [ ("html_classes", PyList [PyStr ("blueprint-" +:+ replace_dot_dash b)]);
    ("html_id", PyStr ("endpoint-" +:+ replace_dot_dash e));
    ("is_development", PyBool (in_dev_environment settings)) ].

(** What [render_react]'s [wrapped] adds for the React host template. *)
Definition react_context (self : render_react) (url_map : pyvalue)
  : list (string * pyvalue) :=
  [ ("react_entrypoint_filename",
     PyStr ("js/template/" +:+ module self +:+ "/" +:+ name self +:+ ".tsx"));
    ("base_data", PyDict [("urlMap", url_map)]) ].

(** The response both decorators build around rendered HTML. *)
Definition html_response (body : string) : pyvalue :=
  PyTuple [PyStr body; PyInt 200;
           PyDict [("Content-Type", PyStr "text/html; charset=utf-8")]].

(** The template [render_html] derives when none was given. *)
Definition derived_template (directory name : string) : string :=
  "/" +:+ directory +:+ "/" +:+ name +:+ ".jinja2".

End Observations.

(** ** More concrete disks and handlers *)

Module MoreExamples.
Import Fs Py Renderer Examples Observations.


(** A project tree with [js/template] but without the stub template. *)
Definition disk_without_template : filesystem :=
  list_to_map
    [ ([], Dir); (["srv"], Dir); (["srv"; "app"], Dir);
      (["srv"; "app"; "js"], Dir); (pages, Dir) ].

(** An introspector that cannot reflect anything. *)
Definition failing_interfaces (rt : option pytype) (name : string)
    (default_export : bool) : result (ts_imports * ts_interfaces) :=
  Raise (ExternalError "cannot reflect").

(** A plain-template handler that returns template variables. *)
Definition listing_items : list (string * pyvalue) :=
  [("title", PyStr "Widgets"); ("count", PyInt 4)].

Definition listing : view_function := handler None (PyDict listing_items).

(** One whose dict uses a keyword of the base template. *)
Definition clashing_items : list (string * pyvalue) :=
  [("title", PyStr "Widgets"); ("html_id", PyStr "mine")].

Definition clashing : view_function := handler None (PyDict clashing_items).

Definition props_value : pyvalue :=
  PyObject "PreferencesProps" [("max_widgets", PyInt 4)].

Definition interface_text : string :=
  "export default interface PageProps {" +:+ NL
  +:+ "  max_widgets: number;" +:+ NL +:+ "}".

End MoreExamples.

(** ** Lemmas on the string operations *)

Module PyStrFacts.
Import PyStr.

Lemma append_assoc (a b c : string) : (a +:+ b) +:+ c = a +:+ (b +:+ c).
Proof.
  induction a as [|x a IH]; [done |].
  change (String x ((a +:+ b) +:+ c) = String x (a +:+ (b +:+ c))).
  by rewrite IH.
Qed.

Lemma lstrip_nonspace c r : is_space c = false → lstrip (String c r) = String c r.
Proof. intros H. simpl. by rewrite H. Qed.

Lemma rstrip_cons_nonempty c r :
  rstrip r ≠ EmptyString → rstrip (String c r) = String c (rstrip r).
Proof. simpl. destruct (rstrip r); [done | reflexivity]. Qed.

Lemma rstrip_cons_nonspace c r :
  is_space c = false → ∃ r', rstrip (String c r) = String c r'.
Proof.
  intros H. simpl. destruct (rstrip r) as [|d r'].
  - rewrite H. by eexists.
  - by eexists.
Qed.

Lemma is_prefix_nonempty a p s : is_prefix (String a p) s = true → s ≠ EmptyString.
Proof. by destruct s. Qed.

Lemma is_prefix_app p x : is_prefix p (p +:+ x) = true.
Proof.
  induction p as [|a p IH]; [done |].
  simpl. by rewrite Ascii.eqb_refl, IH.
Qed.

Lemma is_prefix_app_r p s t : is_prefix p s = true → is_prefix p (s +:+ t) = true.
Proof.
  revert s. induction p as [|a p IH]; intros [|b s]; simpl; try done.
  intros [-> Hp]%andb_prop. by rewrite IH.
Qed.

(** A prefix that [rstrip] leaves alone survives [rstrip] of the whole. *)
Lemma is_prefix_rstrip p : ∀ s,
  rstrip p = p → is_prefix p s = true → is_prefix p (rstrip s) = true.
Proof.
  induction p as [|a p IH]; [done |].
  intros [|b s] Hfix Hpre; [done |].
  simpl in Hpre. apply andb_prop in Hpre as [Hab Hpre].
  apply Ascii.eqb_eq in Hab as <-.
  simpl in Hfix. destruct (rstrip p) as [|d p'] eqn:Hp.
  - destruct (is_space a) eqn:Ha; [done |]. injection Hfix as <-.
    destruct (rstrip_cons_nonspace a s Ha) as [r' ->].
    simpl. by rewrite Ascii.eqb_refl.
  - injection Hfix as <-.
    specialize (IH s eq_refl Hpre).
    rewrite rstrip_cons_nonempty by (by eapply is_prefix_nonempty).
    simpl. by rewrite Ascii.eqb_refl.
Qed.

Lemma strip_keeps_prefix c t x :
  is_space c = false →
  rstrip (String c t) = String c t →
  is_prefix (String c t) (strip (String c t +:+ x)) = true.
Proof.
  intros Hc Hfix. unfold strip.
  change (String c t +:+ x) with (String c (t +:+ x)).
  rewrite lstrip_nonspace by done.
  apply is_prefix_rstrip; [done |].
  apply (is_prefix_app (String c t)).
Qed.

(** [rstrip] never leaves white space at the end. *)
Lemma rstrip_last s :
  rstrip s ≠ EmptyString →
  ∃ c, last_char (rstrip s) = Some c ∧ is_space c = false.
Proof.
  induction s as [|a s IH]; [done |].
  simpl. destruct (rstrip s) as [|d r] eqn:Hr.
  - destruct (is_space a) eqn:Ha; [done |]. intros _. by exists a.
  - intros _. destruct IH as (c & Hc & Hsp); [done |].
    exists c. split; [| done]. simpl in *. done.
Qed.

Lemma universal_newlines_no_cr s : has_cr s = false → universal_newlines s = s.
Proof.
  induction s as [|c s IH]; [done |].
  simpl. intros [Hc Hs]%orb_false_elim. rewrite Hc. by rewrite IH.
Qed.

End PyStrFacts.

(** ** Lemmas on the monad and the filesystem calls *)

Module FsFacts.
Import Fs.

Lemma outcome_eta {A} (o : outcome A) : Outcome (value o) (disk o) (trace o) = o.
Proof. by destruct o. Qed.

Lemma bind_run {A B} (m : io A) (k : A → io B) fs :
  (m ≫= k) fs =
  match value (m fs) with
  | Ok a => Outcome (value (k a (disk (m fs)))) (disk (k a (disk (m fs))))
                    (trace (m fs) ++ trace (k a (disk (m fs))))
  | Raise e => Outcome (Raise e) (disk (m fs)) (trace (m fs))
  end.
Proof. reflexivity. Qed.

Lemma trace_bind_nil {A B} (m : io A) (k : A → io B) fs :
  trace ((m ≫= k) fs) = [] → trace (m fs) = [].
Proof.
  rewrite bind_run. destruct (value (m fs)); simpl; [| done].
  by intros [? _]%app_eq_nil.
Qed.

Lemma bind_ok_inv {A B} (m : io A) (k : A → io B) fs b :
  value ((m ≫= k) fs) = Ok b →
  ∃ a, value (m fs) = Ok a
       ∧ value (k a (disk (m fs))) = Ok b
       ∧ (m ≫= k) fs
         = Outcome (value (k a (disk (m fs)))) (disk (k a (disk (m fs))))
                   (trace (m fs) ++ trace (k a (disk (m fs)))).
Proof.
  rewrite bind_run. destruct (value (m fs)) as [a|e] eqn:Hm; [| done].
  intros Hk. by exists a.
Qed.

Lemma write_text_ok p data fs :
  value (write_text p data fs) = Ok () →
  write_text p data fs = Outcome (Ok ()) (<[p := File data]> fs) [EvWrite p data].
Proof. unfold write_text. repeat case_match; simpl; done. Qed.

Lemma read_text_raises_IOError p fs e :
  value (read_text p fs) = Raise e → is_IOError e = true.
Proof.
  unfold read_text, ENOENT_or_ENOTDIR.
  repeat case_match; simpl; intros [= <-]; done.
Qed.

Lemma unlink_no_write p fs : count_writes (trace (unlink p fs)) = 0.
Proof. unfold unlink. repeat case_match; simpl; done. Qed.

Lemma iterdir_no_write d fs : count_writes (trace (iterdir d fs)) = 0.
Proof. unfold iterdir. repeat case_match; simpl; done. Qed.

Lemma rmdir_no_write d fs : count_writes (trace (rmdir d fs)) = 0.
Proof. unfold rmdir. repeat case_match; simpl; done. Qed.

Lemma count_writes_app t1 t2 :
  count_writes (t1 ++ t2) = count_writes t1 + count_writes t2.
Proof. unfold count_writes. by rewrite List.filter_app, length_app. Qed.

Lemma count_writes_bind {A B} (m : io A) (k : A → io B) fs :
  count_writes (trace (m fs)) = 0 →
  (∀ a fs', count_writes (trace (k a fs')) = 0) →
  count_writes (trace ((m ≫= k) fs)) = 0.
Proof.
  intros Hm Hk. rewrite bind_run. destruct (value (m fs)); simpl; [| done].
  by rewrite count_writes_app, Hm, Hk.
Qed.

(** A directory that lists entries cannot be removed. *)
Lemma rmdir_listed d fs x xs :
  value (iterdir d fs) = Ok (x :: xs) →
  rmdir d fs = Outcome (Raise OSError_ENOTEMPTY) fs [EvRmdir d].
Proof.
  unfold iterdir, rmdir. destruct (fs !! d) as [[c|]|]; simpl; try done.
  intros [= ->]. done.
Qed.

End FsFacts.

(** ** The claims *)

Section Properties.
Import Fs Py Renderer Claims PyStrFacts FsFacts.

Context (settings : Settings) (app : App).
Context (generate_interfaces :
           option pytype → string → bool → result (ts_imports * ts_interfaces)).
Context (render_template : string → list (string * pyvalue) → result string).

Local Abbreviation sync := (_write_typescript_file settings app).
Local Abbreviation stub := (_write_react_page_file settings app).
Local Abbreviation contents := (_generate_typescript_type_file_contents generate_interfaces).
Local Abbreviation decorate := (render_react_call settings app generate_interfaces).

Lemma type_file_contents_header imports interfaces :
  PyStr.is_prefix generated_header (type_file_contents imports interfaces) = true.
Proof.
  unfold type_file_contents.
  set (s := if imports_truthy imports then _ else _).
  assert (∃ x, s +:+ interfaces_render interfaces = generated_header +:+ x) as [x ->].
  { unfold s. destruct (imports_truthy imports).
    - eexists. by rewrite !append_assoc.
    - eexists. by rewrite !append_assoc. }
  apply is_prefix_app_r.
  assert (Hfix : PyStr.rstrip generated_header = generated_header) by (by vm_compute).
  assert (Hhead : ∃ t, generated_header = String "/"%char t) by (by eexists).
  revert Hfix Hhead. generalize generated_header as h.
  intros h Hfix [t ->].
  by apply strip_keeps_prefix.
Qed.

Lemma type_file_contents_newline imports interfaces :
  ends_in_one_newline (type_file_contents imports interfaces).
Proof.
  pose proof (type_file_contents_header imports interfaces) as Hpre.
  unfold type_file_contents in *. cbv zeta in *.
  set (body := PyStr.strip _) in *.
  assert (Hne : body ≠ EmptyString).
  { intros Hb. rewrite Hb in Hpre. by vm_compute in Hpre. }
  destruct (rstrip_last _ Hne) as (c & Hc & Hsp).
  by exists body, c.
Qed.

Lemma stub_checks_disk_in_development module endpoint fs :
  in_dev_environment settings = true → trace (stub module endpoint fs) ≠ [].
Proof.
  intros Hdev. unfold _write_react_page_file. rewrite Hdev.
  cbn [negb]. cbv zeta. rewrite bind_run.
  unfold exists_ at 1 2 3. cbn [value trace disk].
  by destruct (negb _).
Qed.

(** C4. Generating the type source for a return type is deterministic and
    newline-normalised: whenever the introspector returns, the generator
    returns a string that depends on the return type alone (not on the
    instance's other fields nor on the disk, which it leaves untouched),
    so two calls give the same string; that string begins with the fixed
    header comment and ends in exactly one newline. *)
Theorem C4_generation_deterministic_normalised
    (self self' : render_react) (fs fs' : filesystem) r :
  return_type self = return_type self' →
  generate_interfaces (return_type self) "PageProps" true = Ok r →
  ∃ s, contents self fs = Outcome (Ok s) fs []
       ∧ contents self' fs' = Outcome (Ok s) fs' []
       ∧ PyStr.is_prefix generated_header s = true
       ∧ ends_in_one_newline s.
Proof.
  intros Hrt Hgen.
  exists (type_file_contents r.1 r.2).
  unfold _generate_typescript_type_file_contents.
  rewrite <- Hrt, Hgen.
  repeat split.
  - apply type_file_contents_header.
  - apply type_file_contents_newline.
Qed.

(** C6. When the handler's result is not a [dict], the plain-template
    decorator's [wrapped] yields exactly what the handler yielded: the same
    value, with nothing logged and no template rendered on top of what the
    handler itself did. *)
Theorem C6_render_html_passes_through
    (self_template : option string) (f : view_function) (req : request)
    (fs : filesystem) (response : pyvalue) :
  value (fn_call f req fs) = Ok response →
  isinstance_dict response = false →
  render_html_wrapped settings render_template self_template f req fs
  = fn_call f req fs
  ∧ value (render_html_wrapped settings render_template self_template f req fs)
    = Ok response.
Proof.
  intros Hcall Hnd.
  assert (render_html_wrapped settings render_template self_template f req fs
          = fn_call f req fs) as ->; [| done].
  unfold render_html_wrapped. rewrite bind_run, Hcall.
  destruct response; try done;
    simpl; rewrite app_nil_r, <- Hcall; apply outcome_eta.
Qed.

(** C7. Outside development mode the type-file sync and the stub writer
    both return normally at once: the disk is the one they were given and
    not a single filesystem call (nor anything else) is issued. *)
Theorem C7_no_filesystem_access_outside_development
    (module endpoint : string) (type_data : option string) (fs : filesystem) :
  not_development settings →
  sync module endpoint type_data fs = Outcome (Ok ()) fs []
  ∧ stub module endpoint fs = Outcome (Ok ()) fs [].
Proof.
  intros [Henv Hdev]. split.
  - unfold _write_typescript_file. by rewrite bool_decide_true.
  - unfold _write_react_page_file. by rewrite Hdev.
Qed.

(** C8. A handler that declares a return type which is neither [NoneType]
    nor an attrs class makes decoration raise the assertion error with the
    disk untouched and no filesystem call made: no stub, no type file, and
    no decorated endpoint comes back to serve requests. *)
Theorem C8_non_attrs_return_type_is_rejected
    (f : view_function) (rt : pytype) (fs : filesystem) :
  fn_return f = Some rt →
  rt ≠ NoneType →
  (∀ cls fields, rt ≠ AttrsClass cls fields) →
  ∃ msg, decorate f fs = Outcome (Raise (AssertionError msg)) fs [].
Proof.
  intros Hrt Hnone Hattrs.
  unfold render_react_call, _write_typescript_type_file. simpl.
  rewrite Hrt. destruct rt as [|cls fields|n]; [done | by destruct (Hattrs cls fields) |].
  simpl. by eexists.
Qed.

(** C10. A handler with no return annotation is not taken for one that
    returns nothing: its return type is the Python [None], which is not
    [NoneType], so decoration raises the assertion error before touching
    the disk.  In development mode, decoration returns normally without any
    filesystem call exactly when the annotation is [NoneType]. *)
Theorem C10_missing_annotation_is_not_none
    (f : view_function) (fs : filesystem) :
  (fn_return f = None →
   ∃ msg, decorate f fs = Outcome (Raise (AssertionError msg)) fs [])
  ∧ (fn_return f = Some NoneType →
     ∃ self, decorate f fs = Outcome (Ok self) fs [])
  ∧ (in_dev_environment settings = true →
     (∃ self, value (decorate f fs) = Ok self ∧ trace (decorate f fs) = [])
     ↔ fn_return f = Some NoneType).
Proof.
  unfold render_react_call, _write_typescript_type_file. simpl.
  split; [| split].
  - intros ->. simpl. by eexists.
  - intros ->. simpl. by eexists.
  - intros Hdev. split.
    + intros (self & Hv & Ht).
      destruct (fn_return f) as [[|cls fields|n]|] eqn:Hrt; simpl in *; try done.
      destruct fields as [|x fields]; simpl in *; [done |].
      exfalso. clear Hv.
      apply trace_bind_nil, trace_bind_nil in Ht.
      by eapply stub_checks_disk_in_development.
    + intros ->. simpl. by eexists.
Qed.

(** In development mode the sync reads the file, takes a failed read for
    no content, and goes on to compare. *)
Lemma sync_development_run module endpoint type_data fs :
  ENVIRONMENT settings = "development" →
  let p := typescript_file_path app module endpoint in
  sync module endpoint type_data fs
  = (emit (EvRead p) ;;
     compare_and_sync app module endpoint type_data (existing_content fs p)) fs.
Proof.
  intros Hdev p. unfold _write_typescript_file.
  rewrite bool_decide_false by (by intros []).
  cbv zeta. fold p. rewrite !bind_run.
  unfold try_except_IOError, existing_content. rewrite bind_run.
  unfold read_text, ENOENT_or_ENOTDIR.
  destruct (fs !! p) as [[c|]|]; simpl; try done.
  by destruct (fs !! parent p) as [[c|]|].
Qed.

Lemma compare_and_sync_wrote module endpoint data existing fs :
  let p := typescript_file_path app module endpoint in
  let o := compare_and_sync app module endpoint (Some data) existing fs in
  value o = Ok () →
  count_writes (trace o) = 1 →
  disk o !! p = Some (File data).
Proof.
  intros p o. subst o. unfold compare_and_sync. fold p.
  case_bool_decide; [| done].
  destruct data as [|c r].
  - intros _ Hc. exfalso. revert Hc.
    rewrite count_writes_bind; [done | done |].
    intros _ fs1. apply count_writes_bind; [apply unlink_no_write |].
    intros _ fs2. apply count_writes_bind; [apply iterdir_no_write |].
    intros entries fs3. destruct (any_path entries); [apply rmdir_no_write | done].
  - intros Hv _.
    apply bind_ok_inv in Hv as (_ & _ & Hv & ->). cbn [value disk trace] in *.
    set (fs1 := disk (log_info _ _ fs)) in *.
    apply bind_ok_inv in Hv as (_ & _ & Hw & ->). cbn [value disk trace] in *.
    rewrite (write_text_ok _ _ _ Hw). cbn [disk].
    apply lookup_insert_eq.
Qed.

(** C3 (amended). For type data without a carriage return, the sync is
    idempotent: once a call has written the file, a second call with the
    same data reads back an equal string, returns normally, leaves the disk
    as it is and issues no mutating call, so the two calls together write
    exactly once. *)
Theorem C3_sync_idempotent_without_carriage_return
    (module endpoint type_data : string) (fs : filesystem) :
  PyStr.has_cr type_data = false →
  sync_twice_writes_once settings app module endpoint type_data fs.
Proof.
  intros Hcr. unfold sync_twice_writes_once. cbv zeta.
  destruct (decide (ENVIRONMENT settings = "development")) as [Hdev|Hdev].
  - rewrite !sync_development_run by done. cbv zeta.
    set (p := typescript_file_path app module endpoint).
    rewrite (bind_run (emit (EvRead p))). cbn [emit value disk trace].
    set (o := compare_and_sync app module endpoint (Some type_data)
                (existing_content fs p) fs).
    intros Hv Hc. change (count_writes (trace o) = 1) in Hc.
    pose proof (compare_and_sync_wrote module endpoint type_data _ fs Hv Hc) as Hp.
    fold p o in Hp.
    rewrite (bind_run (emit (EvRead p))). cbn [emit value disk trace].
    assert (compare_and_sync app module endpoint (Some type_data)
              (existing_content (disk o) p) (disk o)
            = Outcome (Ok ()) (disk o) []) as ->.
    { unfold existing_content. rewrite Hp, universal_newlines_no_cr by done.
      unfold compare_and_sync. by rewrite bool_decide_false by (by intros []). }
    cbn [value disk trace]. repeat split; try done.
    rewrite !count_writes_app. change (0 + count_writes (trace o) + (0 + 0) = 1). lia.
  - unfold _write_typescript_file. rewrite bool_decide_true by done. done.
Qed.

Lemma stub_development_run module endpoint fs :
  in_dev_environment settings = true →
  let p := react_page_file_path app module endpoint in
  stub module endpoint fs =
    if bool_decide (is_Some (fs !! p)) then Outcome (Ok ()) fs [EvExists p]
    else
      let o :=
        (log_info "Creating new react page for this endpoint"
                  (log_fields module endpoint p) ;;
         template_file_content ← read_text (template_path app);
         mkdir_exist_ok (parent p) ;;
         write_text p template_file_content) fs in
      Outcome (value o) (disk o) (EvExists p :: trace o).
Proof.
  intros Hdev p. unfold _write_react_page_file. rewrite Hdev.
  cbn [negb]. cbv zeta. fold p. rewrite bind_run.
  unfold exists_. cbn [value disk trace].
  by case_bool_decide.
Qed.

(** C5. The stub writer only creates.  When something already exists at the
    component's path the call returns normally with the disk exactly as it
    was and without a mutating call; and once a call has created the stub,
    the next call checks that the file exists and does nothing else. *)
Theorem C5_stub_writer_only_creates (module endpoint : string) (fs : filesystem) :
  let p := react_page_file_path app module endpoint in
  (is_Some (fs !! p) →
   value (stub module endpoint fs) = Ok ()
   ∧ disk (stub module endpoint fs) = fs
   ∧ List.filter is_mutation (trace (stub module endpoint fs)) = [])
  ∧ (value (stub module endpoint fs) = Ok () →
     count_writes (trace (stub module endpoint fs)) = 1 →
     let created := disk (stub module endpoint fs) in
     stub module endpoint created = Outcome (Ok ()) created [EvExists p]).
Proof.
  intros p.
  destruct (in_dev_environment settings) eqn:Hdev.
  - rewrite !stub_development_run by done. cbv zeta. fold p.
    case_bool_decide as Hex.
    + split; [done |]. intros _ Hc. by cbn in Hc.
    + split; [done |]. cbn [value disk trace]. intros Hv _.
      apply bind_ok_inv in Hv as (_ & _ & Hv & ->). cbn [value disk trace] in *.
      set (fs1 := disk (log_info _ _ fs)) in *.
      apply bind_ok_inv in Hv as (content & _ & Hv & ->). cbn [value disk trace] in *.
      set (fs2 := disk (read_text _ fs1)) in *.
      apply bind_ok_inv in Hv as (_ & _ & Hw & ->). cbn [value disk trace] in *.
      rewrite (write_text_ok _ _ _ Hw). cbn [disk].
      rewrite stub_development_run by done. cbv zeta. fold p.
      by rewrite bool_decide_true by (rewrite lookup_insert_eq; by eexists).
  - unfold _write_react_page_file. rewrite Hdev. cbn [negb].
    split; [done |]. intros _ Hc. by cbn in Hc.
Qed.

(** C9. In development mode a failed read of the existing type file is not
    propagated: when the file is absent, or opening it raises for any other
    reason, the sync is the read attempt followed by the compare-and-write
    run with no existing content. *)
Theorem C9_read_failure_is_absent_file
    (module endpoint : string) (type_data : option string) (fs : filesystem) :
  ENVIRONMENT settings = "development" →
  let p := typescript_file_path app module endpoint in
  (fs !! p = None ∨ ∃ e, value (read_text p fs) = Raise e) →
  sync module endpoint type_data fs
  = (emit (EvRead p) ;; compare_and_sync app module endpoint type_data None) fs.
Proof.
  intros Hdev p Hfail.
  rewrite sync_development_run by done. cbv zeta. fold p.
  assert (existing_content fs p = None) as ->; [| done].
  unfold existing_content.
  destruct Hfail as [-> | [e He]]; [done |].
  unfold read_text in He. by destruct (fs !! p) as [[c|]|].
Qed.

End Properties.

(** ** The claims at concrete inputs *)

Section Concrete.
Import Fs Py Renderer Claims Examples.

(** C1. The directory clean-up after deleting the type file is inverted.
    With the type file alone in its directory, the sync deletes the file,
    lists the directory, finds it empty and leaves it in place; with a
    component file next to it, the sync deletes the type file, lists the
    directory, calls [rmdir] on the non-empty directory and raises the
    resulting [OSError]. *)
Theorem C1_directory_cleanup_is_inverted :
  let alone := _write_typescript_file development app "home" "index" None stale_disk in
  let shared :=
    _write_typescript_file development app "home" "index" None
                           stale_disk_with_component in
  (value alone = Ok ()
   ∧ disk alone !! type_path = None
   ∧ children home_dir (disk alone) = []
   ∧ disk alone !! home_dir = Some Dir
   ∧ trace alone = [ EvRead type_path;
                     EvLog "removing type data"
                           (log_fields "home" "index" type_path);
                     EvUnlink type_path;
                     EvIterdir home_dir ])
  ∧ (value shared = Raise OSError_ENOTEMPTY
     ∧ disk shared !! type_path = None
     ∧ children home_dir (disk shared) = [component_path]
     ∧ disk shared !! home_dir = Some Dir
     ∧ last (trace shared) = Some (EvRmdir home_dir)).
Proof. cbv zeta. by vm_compute. Qed.

(** C2. Decorating a handler annotated [-> None] in development mode, on a
    disk that still holds the type file of an earlier schema, returns at
    once: nothing is created, no filesystem call is made, and the stale
    type file and its directory are still there afterwards. *)
Theorem C2_none_return_leaves_stale_type_file :
  let o :=
    render_react_call development app generate_interfaces
                      (handler (Some NoneType) PyNone) stale_disk in
  value o = Ok (RenderReact "render_react.jinja2" (handler (Some NoneType) PyNone)
                            (Some NoneType) "home" "index")
  ∧ trace o = []
  ∧ disk o = stale_disk
  ∧ stale_disk !! component_path = None
  ∧ stale_disk !! type_path = Some (File "export default interface PageProps {}")
  ∧ stale_disk !! home_dir = Some Dir.
Proof.
  cbv zeta.
  assert (∀ fs, render_react_call development app generate_interfaces
                  (handler (Some NoneType) PyNone) fs
                = Outcome (Ok (RenderReact "render_react.jinja2"
                                 (handler (Some NoneType) PyNone)
                                 (Some NoneType) "home" "index")) fs []) as ->.
  { intros fs. reflexivity. }
  cbn [value disk trace].
  split; [reflexivity |]. split; [reflexivity |]. split; [reflexivity |].
  by vm_compute.
Qed.

(** C3, as stated, fails for type data holding a carriage return: the first
    call writes the file, the second call reads the text back with the
    carriage return turned into a newline, finds it different from the type
    data and writes the file again, two writes in all. *)
Lemma C3_carriage_return_is_written_twice :
  let first := _write_typescript_file development app "home" "index" (Some cr_data) fresh_disk in
  let second :=
    _write_typescript_file development app "home" "index" (Some cr_data) (disk first) in
  value first = Ok ()
  ∧ count_writes (trace first) = 1
  ∧ existing_content (disk first) type_path ≠ Some cr_data
  ∧ count_writes (trace second) = 1
  ∧ count_writes (trace first ++ trace second) = 2
  ∧ ¬ sync_twice_writes_once development app "home" "index" cr_data fresh_disk.
Proof.
  cbv zeta.
  split; [by vm_compute |]. split; [by vm_compute |].
  split; [by vm_compute |]. split; [by vm_compute |].
  split; [by vm_compute |].
  intros H. destruct H as (_ & _ & _ & Hc); [by vm_compute | by vm_compute |].
  by vm_compute in Hc.
Qed.

Lemma C3_witness :
  let data := "export default interface PageProps {}" +:+ NL in
  let first := _write_typescript_file development app "home" "index" (Some data) fresh_disk in
  let second :=
    _write_typescript_file development app "home" "index" (Some data) (disk first) in
  (value first = Ok () ∧ count_writes (trace first) = 1)
  ∧ value second = Ok ()
  ∧ disk second = disk first
  ∧ List.filter is_mutation (trace second) = []
  ∧ count_writes (trace first ++ trace second) = 1.
Proof.
  cbv zeta. split; [split; vm_compute; reflexivity |].
  apply (C3_sync_idempotent_without_carriage_return development app "home" "index"
           ("export default interface PageProps {}" +:+ NL) fresh_disk);
    vm_compute; reflexivity.
Defined.

Lemma C4_witness :
  ∃ s, _generate_typescript_type_file_contents generate_interfaces
         preferences_instance fresh_disk = Outcome (Ok s) fresh_disk []
       ∧ _generate_typescript_type_file_contents generate_interfaces
           preferences_instance stale_disk = Outcome (Ok s) stale_disk []
       ∧ PyStr.is_prefix generated_header s = true
       ∧ ends_in_one_newline s.
Proof.
  eapply (C4_generation_deterministic_normalised generate_interfaces
            preferences_instance preferences_instance fresh_disk stale_disk);
    reflexivity.
Defined.

Lemma C5_witness :
  (value (_write_react_page_file development app "home" "index" stale_disk_with_component)
   = Ok ()
   ∧ disk (_write_react_page_file development app "home" "index" stale_disk_with_component)
     = stale_disk_with_component)
  ∧ (let created := disk (_write_react_page_file development app "home" "index" fresh_disk) in
     count_writes (trace (_write_react_page_file development app "home" "index" fresh_disk)) = 1
     ∧ _write_react_page_file development app "home" "index" created
       = Outcome (Ok ()) created [EvExists component_path]).
Proof.
  split.
  - destruct (C5_stub_writer_only_creates development app "home" "index"
                stale_disk_with_component) as [H _].
    destruct H as (Hv & Hd & _); [vm_compute; by eexists |]. by split.
  - cbv zeta. split; [vm_compute; reflexivity |].
    destruct (C5_stub_writer_only_creates development app "home" "index" fresh_disk)
      as [_ H].
    apply H; vm_compute; reflexivity.
Defined.

Lemma C6_witness :
  render_html_wrapped production render_template None redirecting no_context fresh_disk
  = fn_call redirecting no_context fresh_disk
  ∧ value (render_html_wrapped production render_template None redirecting
             no_context fresh_disk)
    = Ok redirect.
Proof.
  apply (C6_render_html_passes_through production render_template None redirecting
           no_context fresh_disk redirect); reflexivity.
Defined.

Lemma C7_witness :
  _write_typescript_file production app "home" "index" (Some "x") fresh_disk
  = Outcome (Ok ()) fresh_disk []
  ∧ _write_react_page_file production app "home" "index" fresh_disk
    = Outcome (Ok ()) fresh_disk [].
Proof.
  apply (C7_no_filesystem_access_outside_development production app "home" "index"
           (Some "x") fresh_disk).
  split; [discriminate | reflexivity].
Defined.

Lemma C8_witness :
  ∃ msg, render_react_call development app generate_interfaces
           (handler (Some (PlainType "int")) (PyInt 4)) fresh_disk
         = Outcome (Raise (AssertionError msg)) fresh_disk [].
Proof.
  apply (C8_non_attrs_return_type_is_rejected development app generate_interfaces
           (handler (Some (PlainType "int")) (PyInt 4)) (PlainType "int") fresh_disk);
    [reflexivity | discriminate | discriminate].
Defined.

Lemma C9_witness :
  _write_typescript_file development app "home" "index" (Some "x") fresh_disk
  = (emit (EvRead type_path) ;;
     compare_and_sync app "home" "index" (Some "x") None) fresh_disk.
Proof.
  apply (C9_read_failure_is_absent_file development app "home" "index" (Some "x")
           fresh_disk); [reflexivity | left; vm_compute; reflexivity].
Defined.

Lemma C10_witness :
  (∃ msg, render_react_call development app generate_interfaces
            (handler None PyNone) fresh_disk
          = Outcome (Raise (AssertionError msg)) fresh_disk [])
  ∧ (∃ self, render_react_call development app generate_interfaces
               (handler (Some NoneType) PyNone) fresh_disk
             = Outcome (Ok self) fresh_disk []).
Proof.
  split.
  - apply (C10_missing_annotation_is_not_none development app generate_interfaces
             (handler None PyNone) fresh_disk). reflexivity.
  - apply (C10_missing_annotation_is_not_none development app generate_interfaces
             (handler (Some NoneType) PyNone) fresh_disk). reflexivity.
Defined.

End Concrete.

(** ** Further properties: names and paths *)

Section Names.
Import PyStr Observations PyStrFacts.

Lemma append_nil_r (s : string) : s +:+ EmptyString = s.
Proof.
  induction s as [|x s IH]; [done |].
  change (String x (s +:+ EmptyString) = String x s). by rewrite IH.
Qed.

Lemma rev_app_rev_app (c : string) : ∀ a b,
  String.rev_app (String.rev_app c a) b = String.rev_app a (c +:+ b).
Proof.
  induction c as [|x c IH]; intros a b; [done |].
  cbn [String.rev_app]. by rewrite IH.
Qed.

(** Scanning a dot-free stretch only grows the pending component. *)
Lemma split_dot_aux_plain (c : string) : ∀ acc s,
  has_dot c = false →
  split_dot_aux acc (c +:+ s) = split_dot_aux (String.rev_app c acc) s.
Proof.
  induction c as [|x c IH]; intros acc s Hc; [done |].
  cbn [has_dot] in Hc. apply orb_false_elim in Hc as [Hx Hc].
  change (String x c +:+ s) with (String x (c +:+ s)).
  cbn [split_dot_aux String.rev_app]. by rewrite Hx, IH.
Qed.

Lemma rev_of_scanned (c : string) : String.rev (String.rev_app c EmptyString) = c.
Proof. unfold String.rev. by rewrite rev_app_rev_app, append_nil_r. Qed.

Lemma split_dot_join_dot (cs : list string) :
  cs ≠ [] →
  Forall (λ c, has_dot c = false) cs →
  split_dot (join_dot cs) = cs.
Proof.
  unfold split_dot. induction cs as [|c cs IH]; [done |].
  intros _ Hall. apply Forall_cons_1 in Hall as [Hc Hcs].
  destruct cs as [|d cs].
  - cbn [join_dot]. rewrite <- (append_nil_r c) at 1.
    rewrite split_dot_aux_plain by done.
    cbn [split_dot_aux]. by rewrite rev_of_scanned.
  - change (join_dot (c :: d :: cs)) with (c +:+ String "."%char (join_dot (d :: cs))).
    rewrite split_dot_aux_plain by done.
    cbn [split_dot_aux]. change (Ascii.eqb "." ".") with true. cbv iota.
    rewrite rev_of_scanned, IH; done.
Qed.

(** X1. Splitting a dotted name on its dots gives back the components it
    was joined from, so the directory [render_html] derives for a handler in
    module [a.b.c1. ... .cn] is [c1/.../cn]: the first two packages are
    dropped and the dots become slashes (nothing is left of a module with
    fewer than three components). *)
Theorem template_directory_drops_two_packages (a b : string) (cs : list string) :
  Forall (λ c, has_dot c = false) (a :: b :: cs) →
  split_dot (join_dot (a :: b :: cs)) = a :: b :: cs
  ∧ join_slash (drop 2 (split_dot (join_dot (a :: b :: cs)))) = join_slash cs
  ∧ join_slash (drop 2 (split_dot (join_dot [a; b]))) = EmptyString
  ∧ join_slash (drop 2 (split_dot a)) = EmptyString.
Proof.
  intros Hall.
  pose proof (split_dot_join_dot (a :: b :: cs) ltac:(done) Hall) as Hsplit.
  apply Forall_cons_1 in Hall as [Ha Hall]. apply Forall_cons_1 in Hall as [Hb _].
  repeat split.
  - done.
  - by rewrite Hsplit.
  - by rewrite (split_dot_join_dot [a; b]) by (by repeat constructor).
  - pose proof (split_dot_join_dot [a] ltac:(done)) as H1.
    cbn [join_dot] in H1. by rewrite H1 by (by repeat constructor).
Qed.

Lemma dot_ahead_plain (c r : string) :
  has_lf c = false → dot_ahead (c +:+ String "."%char r) = true.
Proof.
  induction c as [|x c IH]; intros Hc; [done |].
  cbn [has_lf] in Hc. apply orb_false_elim in Hc as [Hx Hc].
  change (String x c +:+ String "." r) with (String x (c +:+ String "." r)).
  cbn [dot_ahead]. rewrite Hx, IH by done. by destruct (Ascii.eqb x ".").
Qed.

Lemma re_sub_skips_to_dot (c r : string) :
  has_lf c = false →
  re_sub_upto_last_dot (c +:+ String "."%char r) = re_sub_upto_last_dot r.
Proof.
  induction c as [|x c IH]; intros Hc.
  - change (EmptyString +:+ String "." r) with (String "."%char r).
    cbn [re_sub_upto_last_dot]. done.
  - cbn [has_lf] in Hc. apply orb_false_elim in Hc as [Hx Hc].
    change (String x c +:+ String "." r) with (String x (c +:+ String "." r)).
    cbn [re_sub_upto_last_dot]. rewrite Hx, dot_ahead_plain, orb_true_r by done.
    by apply IH.
Qed.

Lemma dot_ahead_no_dot (s : string) : has_dot s = false → dot_ahead s = false.
Proof.
  induction s as [|x s IH]; [done |].
  cbn [has_dot dot_ahead]. intros [Hx Hs]%orb_false_elim.
  rewrite Hx, IH by done. by destruct (Ascii.eqb x LF).
Qed.

Lemma re_sub_plain (s : string) : plain_component s → re_sub_upto_last_dot s = s.
Proof.
  intros [Hd Hl]. induction s as [|x s IH]; [done |].
  cbn [has_dot has_lf] in *.
  apply orb_false_elim in Hd as [Hxd Hd]. apply orb_false_elim in Hl as [Hxl Hl].
  cbn [re_sub_upto_last_dot]. rewrite Hxl, Hxd, dot_ahead_no_dot, IH; done.
Qed.

(** X2. For a dotted module name whose components hold no dot and no line
    break, the substitution [re.sub(r".*\.", "", name)] keeps the last
    component and nothing else; a name without dots is kept whole. *)
Theorem module_is_last_component (cs : list string) (last_one : string) :
  Forall plain_component (cs ++ [last_one]) →
  re_sub_upto_last_dot (join_dot (cs ++ [last_one])) = last_one.
Proof.
  induction cs as [|c cs IH]; intros Hall.
  - apply Forall_cons_1 in Hall as [Hl _]. by apply re_sub_plain.
  - apply Forall_cons_1 in Hall as [[_ Hc] Hall].
    change (join_dot ((c :: cs) ++ [last_one]))
      with (join_dot (c :: (cs ++ [last_one]))).
    destruct (cs ++ [last_one]) as [|d rest] eqn:Hrest.
    { by destruct cs. }
    change (join_dot (c :: d :: rest)) with (c +:+ String "."%char (join_dot (d :: rest))).
    rewrite re_sub_skips_to_dot by done.
    apply IH. rewrite <- Hrest. exact Hall.
Qed.

End Names.

(** ** Further properties: the generated type source *)

Section Contents.
Import Fs Py Renderer PyStr Observations PyStrFacts.

Lemma rstrip_all_space (ws : string) : all_space ws = true → rstrip ws = EmptyString.
Proof.
  induction ws as [|c ws IH]; [done |].
  cbn [all_space rstrip]. intros [Hc Hws]%andb_prop. by rewrite IH, Hc.
Qed.

Lemma rstrip_app_space (s ws : string) :
  all_space ws = true → rstrip (s +:+ ws) = rstrip s.
Proof.
  intros Hws. induction s as [|c s IH].
  - by apply rstrip_all_space.
  - change (String c s +:+ ws) with (String c (s +:+ ws)).
    cbn [rstrip]. by rewrite IH.
Qed.

Lemma rstrip_app_fixed (a r : string) :
  rstrip r = r → r ≠ EmptyString → rstrip (a +:+ r) = a +:+ r.
Proof.
  intros Hfix Hne. induction a as [|c a IH]; [done |].
  change (String c a +:+ r) with (String c (a +:+ r)).
  rewrite rstrip_cons_nonempty; rewrite IH; [done |].
  destruct a; [done | discriminate].
Qed.

Lemma strip_after_header (x : string) :
  strip (generated_header +:+ x) = rstrip (generated_header +:+ x).
Proof.
  unfold strip.
  assert (∃ t, generated_header = String "/"%char t) as [t ->] by (by eexists).
  change (String "/" t +:+ x) with (String "/"%char (t +:+ x)).
  by rewrite lstrip_nonspace.
Qed.

Lemma type_file_contents_rstrip (imports : ts_imports) (interfaces : ts_interfaces) :
  type_file_contents imports interfaces
  = rstrip (generated_header
            +:+ (NL +:+ NL
                 +:+ (if imports_truthy imports
                      then imports_render imports +:+ NL else EmptyString))
            +:+ interfaces_render interfaces)
    +:+ NL.
Proof.
  unfold type_file_contents. destruct (imports_truthy imports).
  - by rewrite !append_assoc, strip_after_header.
  - by rewrite !append_assoc, strip_after_header.
Qed.

(** X3. When the rendered interface is not blank and carries no trailing
    white space, the generated source is the header line, a blank line, the
    rendered imports followed by a single newline when the imports are
    truthy (and nothing at all for falsy imports, whatever they render),
    then the interface text as rendered and one final newline. *)
Theorem type_file_layout (imports : ts_imports) (interfaces : ts_interfaces) :
  rstrip (interfaces_render interfaces) = interfaces_render interfaces →
  interfaces_render interfaces ≠ EmptyString →
  type_file_contents imports interfaces
  = generated_header +:+ NL +:+ NL
    +:+ (if imports_truthy imports then imports_render imports +:+ NL
         else EmptyString)
    +:+ interfaces_render interfaces +:+ NL.
Proof.
  intros Hfix Hne. unfold type_file_contents.
  set (r := interfaces_render interfaces) in *.
  destruct (imports_truthy imports).
  - rewrite !append_assoc, strip_after_header.
    rewrite <- !append_assoc, rstrip_app_fixed by done.
    by rewrite !append_assoc.
  - rewrite !append_assoc, strip_after_header.
    rewrite <- !append_assoc, rstrip_app_fixed by done.
    by rewrite !append_assoc.
Qed.

(** X4. White space at the end of the rendered interface never reaches the
    file: rendering [r] or [r] followed by white space gives the same
    source; and with falsy imports a blank interface leaves just the header
    line and its newline. *)
Theorem type_file_ignores_trailing_space
    (imports : ts_imports) (r ws : string) :
  all_space ws = true →
  type_file_contents imports (TsInterfaces (r +:+ ws))
  = type_file_contents imports (TsInterfaces r)
  ∧ (imports_truthy imports = false →
     type_file_contents imports (TsInterfaces ws) = generated_header +:+ NL).
Proof.
  intros Hws. rewrite !type_file_contents_rstrip. cbn [interfaces_render]. split.
  - by rewrite <- !append_assoc, rstrip_app_space.
  - intros ->. rewrite <- append_assoc, rstrip_app_space; [by vm_compute |].
    by cbn.
Qed.

End Contents.

(** ** Further properties: serving requests *)

Section Serving.
Import Fs Py Renderer Observations FsFacts.

Context (settings : Settings).
Context (render_template : string → list (string * pyvalue) → result string).
Context (unstructure : pyvalue → result pyvalue).
Context (url_map : pyvalue).

Lemma quiet_ret {A} (a : A) : quiet (mret a : io A).
Proof. intros fs. split; [done | constructor]. Qed.

Lemma quiet_raise {A} (e : exn) : quiet (raise e : io A).
Proof. intros fs. split; [done | constructor]. Qed.

Lemma quiet_lift {A} (r : result A) : quiet (lift r).
Proof. destruct r; [apply quiet_ret | apply quiet_raise]. Qed.

Lemma quiet_unwrap {A} (o : option A) : quiet (unwrap o).
Proof. destruct o; [apply quiet_ret | apply quiet_raise]. Qed.

Lemma quiet_emit (e : event) : is_fs_call e = false → quiet (emit e).
Proof. intros He fs. split; [done | by repeat constructor]. Qed.

Lemma quiet_bind {A B} (m : io A) (k : A → io B) :
  quiet m → (∀ a, quiet (k a)) → quiet (m ≫= k).
Proof.
  intros Hm Hk fs. rewrite bind_run.
  destruct (Hm fs) as [Hd Ht].
  destruct (value (m fs)) as [a|e]; cbn [disk trace]; [| done].
  destruct (Hk a (disk (m fs))) as [Hd' Ht'].
  split; [congruence | by apply Forall_app].
Qed.

Lemma quiet_merge_kwargs a b : quiet (merge_kwargs a b).
Proof. unfold merge_kwargs. case_bool_decide; [apply quiet_ret | apply quiet_raise]. Qed.

Lemma quiet_base_context req :
  quiet (_build_render_context_for_base_template settings req).
Proof.
  unfold _build_render_context_for_base_template.
  apply quiet_bind; [apply quiet_unwrap |]. intros b.
  apply quiet_bind; [apply quiet_unwrap |]. intros e. apply quiet_ret.
Qed.

Lemma quiet_render template context :
  quiet (flask_render_template render_template template context).
Proof.
  unfold flask_render_template.
  apply quiet_bind; [by apply quiet_emit |]. intros _. apply quiet_lift.
Qed.

(** After a quiet continuation the disk is the one the first step left. *)
Lemma bind_quiet_run {A B} (m : io A) (k : A → io B) fs :
  (∀ a, quiet (k a)) →
  disk ((m ≫= k) fs) = disk (m fs)
  ∧ ∃ t, trace ((m ≫= k) fs) = trace (m fs) ++ t
         ∧ Forall (λ e, is_fs_call e = false) t.
Proof.
  intros Hk. rewrite bind_run. destruct (value (m fs)) as [a|e]; cbn [disk trace].
  - destruct (Hk a (disk (m fs))) as [Hd Ht]. split; [done |]. by eexists.
  - split; [done |]. exists []. by rewrite app_nil_r.
Qed.

(** X5. Serving a request never touches the disk: whatever the handler
    returns or raises, both decorators' [wrapped] leave the disk as the
    handler left it, and everything they add to the handler's own trace is
    a log line or a template rendering, never a filesystem call. *)
Theorem serving_leaves_the_disk_alone
    (self_template : option string) (self : render_react)
    (f : view_function) (req : request) (fs : filesystem) :
  (disk (render_html_wrapped settings render_template self_template f req fs)
   = disk (fn_call f req fs)
   ∧ ∃ t, trace (render_html_wrapped settings render_template self_template f req fs)
          = trace (fn_call f req fs) ++ t
          ∧ Forall (λ e, is_fs_call e = false) t)
  ∧ (disk (render_react_wrapped settings render_template unstructure url_map self req fs)
     = disk (fn_call (view self) req fs)
     ∧ ∃ t, trace (render_react_wrapped settings render_template unstructure url_map
                     self req fs)
            = trace (fn_call (view self) req fs) ++ t
            ∧ Forall (λ e, is_fs_call e = false) t).
Proof.
  split.
  - apply bind_quiet_run. intros response.
    destruct response; try apply quiet_ret.
    apply quiet_bind; [by apply quiet_emit |]. intros _.
    apply quiet_bind; [apply quiet_base_context |]. intros base.
    apply quiet_bind; [apply quiet_merge_kwargs |]. intros kw.
    apply quiet_bind; [apply quiet_merge_kwargs |]. intros kw'.
    apply quiet_bind; [apply quiet_render |]. intros out. apply quiet_ret.
  - apply bind_quiet_run. intros response.
    apply quiet_bind; [apply quiet_lift |]. intros props.
    apply quiet_bind; [apply quiet_base_context |]. intros base.
    apply quiet_bind; [apply quiet_merge_kwargs |]. intros kw.
    apply quiet_bind; [apply quiet_merge_kwargs |]. intros kw'.
    apply quiet_bind; [apply quiet_render |]. intros html. apply quiet_ret.
Qed.

Lemma bind_run_ok {A B} (m : io A) (k : A → io B) fs a fs1 t1 :
  m fs = Outcome (Ok a) fs1 t1 →
  (m ≫= k) fs = Outcome (value (k a fs1)) (disk (k a fs1)) (t1 ++ trace (k a fs1)).
Proof. intros H. by rewrite bind_run, H. Qed.

Lemma bind_run_raise {A B} (m : io A) (k : A → io B) fs e fs1 t1 :
  m fs = Outcome (Raise e) fs1 t1 →
  (m ≫= k) fs = Outcome (Raise e) fs1 t1.
Proof. intros H. by rewrite bind_run, H. Qed.

Lemma base_context_run req b e fs :
  blueprint req = Some b → endpoint req = Some e →
  _build_render_context_for_base_template settings req fs
  = Outcome (Ok (base_context settings b e)) fs [].
Proof.
  intros Hb He. unfold _build_render_context_for_base_template.
  by rewrite Hb, He.
Qed.

Lemma merge_kwargs_ok a b fs :
  NoDup (a ++ b).*1 → merge_kwargs a b fs = Outcome (Ok (a ++ b)) fs [].
Proof. intros H. unfold merge_kwargs. by rewrite bool_decide_true. Qed.

Lemma merge_kwargs_collide a b fs k :
  k ∈ a.*1 → k ∈ b.*1 →
  ∃ msg, merge_kwargs a b fs = Outcome (Raise (TypeError msg)) fs [].
Proof.
  intros Ha Hb. unfold merge_kwargs. rewrite bool_decide_false; [by eexists |].
  rewrite fmap_app. intros [_ [Hdis _]]%NoDup_app. by apply (Hdis k).
Qed.

(** X6. A handler that returns a dict gets its template rendered and a
    200 HTML response back: the template is the one given to the decorator
    or else the one derived from the handler's module and name, the
    context is the handler's dict, then the base-template context, then
    [flask.g.context] when set, provided no keyword occurs twice, and the
    only things added to the handler's trace are one log line and the
    rendering. *)
Theorem render_html_renders_a_dict
    (self_template : option string) (f : view_function) (req : request)
    (fs : filesystem) (items : list (string * pyvalue)) (b e out : string) :
  let template :=
    default (derived_template
               (PyStr.join_slash (drop 2 (PyStr.split_dot (fn_module f))))
               (fn_name f))
            self_template in
  let context := items ++ base_context settings b e ++ default [] (g_context req) in
  value (fn_call f req fs) = Ok (PyDict items) →
  blueprint req = Some b →
  endpoint req = Some e →
  NoDup context.*1 →
  render_template template context = Ok out →
  render_html_wrapped settings render_template self_template f req fs
  = Outcome (Ok (html_response out)) (disk (fn_call f req fs))
            (trace (fn_call f req fs)
             ++ [EvLog ("Looking for " +:+ template +:+ "...") [];
                 EvRender template]).
Proof.
  intros template context Hcall Hb He Hnd Hrender.
  unfold render_html_wrapped. rewrite bind_run, Hcall.
  set (fs1 := disk (fn_call f req fs)).
  assert (template
          = match self_template with
            | Some t => t
            | None =>
                "/" +:+ PyStr.join_slash (drop 2 (PyStr.split_dot (fn_module f)))
                +:+ "/" +:+ fn_name f +:+ ".jinja2"
            end) as <- by (by destruct self_template).
  unfold context in Hnd, Hrender. rewrite app_assoc in Hnd, Hrender.
  assert (NoDup (items ++ base_context settings b e).*1) as Hnd1.
  { rewrite fmap_app in Hnd. by apply NoDup_app in Hnd as [? _]. }
  rewrite (bind_run_ok (log_info _ _) _ fs1 () fs1
             [EvLog ("Looking for " +:+ template +:+ "...") []]) by done.
  rewrite (bind_run_ok _ _ fs1 _ fs1 [] (base_context_run req b e fs1 Hb He)).
  rewrite (bind_run_ok _ _ fs1 _ fs1 [] (merge_kwargs_ok _ _ fs1 Hnd1)).
  rewrite (bind_run_ok _ _ fs1 _ fs1 [] (merge_kwargs_ok _ _ fs1 Hnd)).
  unfold flask_render_template. rewrite Hrender.
  reflexivity.
Qed.

(** X7. A handler dict that uses one of the base template's own keywords
    ([html_classes], [html_id], [is_development]) cannot be rendered: the
    keyword would be passed twice, so [wrapped] raises a [TypeError] after
    its log line and renders nothing. *)
Theorem render_html_rejects_reserved_keyword
    (self_template : option string) (f : view_function) (req : request)
    (fs : filesystem) (items : list (string * pyvalue)) (b e k : string) :
  value (fn_call f req fs) = Ok (PyDict items) →
  blueprint req = Some b →
  endpoint req = Some e →
  k ∈ items.*1 →
  k ∈ base_context_keys →
  ∃ msg log_line,
    render_html_wrapped settings render_template self_template f req fs
    = Outcome (Raise (TypeError msg)) (disk (fn_call f req fs))
              (trace (fn_call f req fs) ++ [EvLog log_line []]).
Proof.
  intros Hcall Hb He Hk Hbase.
  unfold render_html_wrapped. rewrite bind_run, Hcall.
  set (fs1 := disk (fn_call f req fs)).
  destruct (merge_kwargs_collide items (base_context settings b e) fs1 k Hk Hbase)
    as [msg Hmerge].
  exists msg. eexists.
  rewrite (bind_run_ok (log_info _ _) _ fs1 () fs1 [EvLog _ []]) by done.
  rewrite (bind_run_ok _ _ fs1 _ fs1 [] (base_context_run req b e fs1 Hb He)).
  rewrite (bind_run_raise _ _ fs1 _ fs1 [] Hmerge).
  reflexivity.
Qed.

(** X8. A React endpoint's [wrapped] always finds its keywords distinct:
    whatever the handler returned, when the converter unstructures it the
    host template is rendered with the raw response, the props, the
    base-template context, the entry point [js/template/<module>/<name>.tsx]
    and the URL map, and the 200 HTML response comes back. *)
Theorem render_react_renders_the_host_template
    (self : render_react) (req : request) (fs : filesystem)
    (response props : pyvalue) (b e html : string) :
  let context :=
    [("__render_react_response", response); ("props", props)]
    ++ base_context settings b e ++ react_context self url_map in
  value (fn_call (view self) req fs) = Ok response →
  unstructure response = Ok props →
  blueprint req = Some b →
  endpoint req = Some e →
  render_template (template self) context = Ok html →
  NoDup context.*1
  ∧ render_react_wrapped settings render_template unstructure url_map self req fs
    = Outcome (Ok (html_response html)) (disk (fn_call (view self) req fs))
              (trace (fn_call (view self) req fs) ++ [EvRender (template self)]).
Proof.
  intros context Hcall Hun Hb He Hrender.
  assert (NoDup context.*1) as Hnd by (by apply (bool_decide_unpack _)).
  split; [done |].
  unfold render_react_wrapped. rewrite bind_run, Hcall.
  set (fs1 := disk (fn_call (view self) req fs)).
  unfold context in Hnd, Hrender. rewrite app_assoc in Hnd, Hrender.
  assert (NoDup ([("__render_react_response", response); ("props", props)]
                 ++ base_context settings b e).*1) as Hnd1
    by (by apply (bool_decide_unpack _)).
  rewrite Hun.
  rewrite (bind_run_ok (lift (Ok props)) _ fs1 props fs1 []) by done.
  rewrite (bind_run_ok _ _ fs1 _ fs1 [] (base_context_run req b e fs1 Hb He)).
  rewrite (bind_run_ok _ _ fs1 _ fs1 [] (merge_kwargs_ok _ _ fs1 Hnd1)).
  rewrite (bind_run_ok _ _ fs1 _ fs1 [] (merge_kwargs_ok _ _ fs1 Hnd)).
  unfold flask_render_template. rewrite Hrender.
  reflexivity.
Qed.

Lemma has_dot_app (a b : string) :
  has_dot (a +:+ b) = has_dot a || has_dot b.
Proof.
  induction a as [|x a IH]; [done |].
  change (has_dot (String x (a +:+ b)) = has_dot (String x a) || has_dot b).
  cbn [has_dot]. by rewrite IH, orb_assoc.
Qed.

Lemma replace_dot_dash_no_dot (s : string) : has_dot (replace_dot_dash s) = false.
Proof.
  induction s as [|x s IH]; [done |].
  cbn [replace_dot_dash has_dot]. rewrite IH, orb_false_r.
  destruct (Ascii.eqb x ".") eqn:Hx; [done | exact Hx].
Qed.

(** X19. Inside a request with a blueprint and an endpoint, the base
    template context has exactly the keywords [html_classes], [html_id] and
    [is_development], in that order; the single HTML class and the HTML id
    are the blueprint and endpoint names behind their prefixes with every
    dot turned into a dash, so neither holds a dot, and the flag is the
    development setting. *)
Theorem base_context_has_no_dots (req : request) (b e : string) (fs : filesystem) :
  blueprint req = Some b →
  endpoint req = Some e →
  ∃ cls id,
    _build_render_context_for_base_template settings req fs
    = Outcome (Ok [ ("html_classes", PyList [PyStr cls]); ("html_id", PyStr id);
                    ("is_development", PyBool (in_dev_environment settings)) ])
              fs []
    ∧ cls = "blueprint-" +:+ replace_dot_dash b
    ∧ id = "endpoint-" +:+ replace_dot_dash e
    ∧ has_dot cls = false
    ∧ has_dot id = false.
Proof.
  intros Hb He. eexists _, _. split; [by apply base_context_run |].
  repeat split.
  - by rewrite has_dot_app, replace_dot_dash_no_dot.
  - by rewrite has_dot_app, replace_dot_dash_no_dot.
Qed.

End Serving.

(** ** Further properties: the generated files *)

Section Files.
Import Fs Py Renderer Claims Observations PyStrFacts FsFacts.

Context (settings : Settings) (app : App).
Context (generate_interfaces :
           option pytype → string → bool → result (ts_imports * ts_interfaces)).

Local Abbreviation sync := (_write_typescript_file settings app).
Local Abbreviation stub := (_write_react_page_file settings app).
Local Abbreviation decorate := (render_react_call settings app generate_interfaces).
Local Abbreviation type_file := (typescript_file_path app).
Local Abbreviation stub_file := (react_page_file_path app).

Lemma parent_snoc (d : path) (x : string) : parent (d ++ [x]) = d.
Proof. unfold parent. apply removelast_last. Qed.

Lemma snoc_ne (d : path) (x : string) : d ++ [x] ≠ d.
Proof.
  intros H. apply (f_equal length) in H. rewrite length_app in H. simpl in H. lia.
Qed.

Lemma type_file_parent module endpoint :
  parent (type_file module endpoint) = root_path app ++ ["js"; "template"; module].
Proof.
  unfold typescript_file_path.
  change ["js"; "template"; module; endpoint +:+ ".type.ts"]
    with (["js"; "template"; module] ++ [endpoint +:+ ".type.ts"]).
  by rewrite app_assoc, parent_snoc.
Qed.

Lemma stub_file_parent module endpoint :
  parent (stub_file module endpoint) = root_path app ++ ["js"; "template"; module].
Proof.
  unfold react_page_file_path.
  change ["js"; "template"; module; endpoint +:+ ".tsx"]
    with (["js"; "template"; module] ++ [endpoint +:+ ".tsx"]).
  by rewrite app_assoc, parent_snoc.
Qed.

Lemma type_file_ne_parent module endpoint :
  parent (type_file module endpoint) ≠ type_file module endpoint.
Proof.
  rewrite type_file_parent. unfold typescript_file_path.
  intros H. apply (f_equal length) in H. rewrite !length_app in H. simpl in H. lia.
Qed.

Lemma stub_file_ne_parent module endpoint :
  parent (stub_file module endpoint) ≠ stub_file module endpoint.
Proof.
  rewrite stub_file_parent. unfold react_page_file_path.
  intros H. apply (f_equal length) in H. rewrite !length_app in H. simpl in H. lia.
Qed.

(** Making the directory and writing the file, where that can be done. *)
Lemma create_file_run (p : path) (data : string) (fs : filesystem) :
  parent p ≠ p →
  can_hold fs p →
  (mkdir_exist_ok (parent p) ;; write_text p data) fs
  = Outcome (Ok ()) (<[p := File data]> (<[parent p := Dir]> fs))
            [EvMkdir (parent p); EvWrite p data].
Proof.
  intros Hne [Hp Hdir]. rewrite bind_run. unfold mkdir_exist_ok, write_text.
  destruct Hdir as [Hd | [Hd Hg]]; rewrite Hd.
  - cbn [value disk trace]. rewrite (insert_id fs (parent p) Dir Hd).
    destruct (fs !! p) as [[c|]|] eqn:Hfp; [done | done |]. by rewrite Hd.
  - rewrite Hg. cbn [value disk trace].
    rewrite lookup_insert_ne by done.
    destruct (fs !! p) as [[c|]|] eqn:Hfp; [done | done |].
    by rewrite lookup_insert_eq.
Qed.


Lemma sync_write_run module endpoint data fs :
  ENVIRONMENT settings = "development" →
  data ≠ EmptyString →
  Some data ≠ existing_content fs (type_file module endpoint) →
  let p := type_file module endpoint in
  let o := (mkdir_exist_ok (parent p) ;; write_text p data) fs in
  sync module endpoint (Some data) fs
  = Outcome (value o) (disk o)
            (EvRead p :: EvLog "writing new type data" (log_fields module endpoint p)
             :: trace o).
Proof.
  intros Hdev Hne Hdiff p o. rewrite sync_development_run by done.
  cbv zeta. fold p. rewrite (bind_run_ok (emit (EvRead p)) _ fs () fs [EvRead p]) by done.
  unfold compare_and_sync. fold p. rewrite bool_decide_true by done.
  destruct data as [|c r]; [done |].
  rewrite (bind_run_ok (log_info _ _) _ fs () fs [EvLog _ _]) by done.
  reflexivity.
Qed.

(** X9. In development mode, non-empty type data that differs from what
    is on disk is written as it is: when the path can hold a file, the sync
    returns normally, the type file then holds exactly the type data, its
    directory exists, every other path is as before, and exactly one write
    was issued. *)
Theorem sync_writes_the_type_data
    (module endpoint data : string) (fs : filesystem) :
  let p := type_file module endpoint in
  let o := sync module endpoint (Some data) fs in
  ENVIRONMENT settings = "development" →
  data ≠ EmptyString →
  Some data ≠ existing_content fs p →
  can_hold fs p →
  value o = Ok ()
  ∧ disk o !! p = Some (File data)
  ∧ disk o !! parent p = Some Dir
  ∧ (∀ q, q ≠ p → q ≠ parent p → disk o !! q = fs !! q)
  ∧ count_writes (trace o) = 1.
Proof.
  intros p o Hdev Hne Hdiff Hhold. subst o.
  rewrite sync_write_run by done. cbv zeta. fold p.
  rewrite create_file_run by (done || apply type_file_ne_parent).
  cbn [value disk trace]. repeat split.
  - apply lookup_insert_eq.
  - rewrite lookup_insert_ne
      by (intros H; symmetry in H; revert H; apply type_file_ne_parent).
    apply lookup_insert_eq.
  - intros q Hq Hqd. by rewrite !lookup_insert_ne.
Qed.


(** X11. On a disk without the type file, in development mode, [None] as
    type data is a no-op that only attempts the read, while the empty
    string takes the removal branch and raises the [OSError] of unlinking a
    file that is not there; the disk is unchanged either way. *)
Theorem sync_on_absent_file (module endpoint : string) (fs : filesystem) :
  let p := type_file module endpoint in
  ENVIRONMENT settings = "development" →
  fs !! p = None →
  sync module endpoint None fs = Outcome (Ok ()) fs [EvRead p]
  ∧ ∃ e, is_IOError e = true
         ∧ value (sync module endpoint (Some EmptyString) fs) = Raise e
         ∧ disk (sync module endpoint (Some EmptyString) fs) = fs.
Proof.
  intros p Hdev Hp. rewrite !sync_development_run by done. cbv zeta. fold p.
  assert (existing_content fs p = None) as -> by (unfold existing_content; by rewrite Hp).
  rewrite !(bind_run_ok (emit (EvRead p)) _ fs () fs [EvRead p]) by done.
  unfold compare_and_sync. fold p. split.
  - by rewrite bool_decide_false by (intros H; by apply H).
  - rewrite bool_decide_true by done.
    rewrite (bind_run_ok (log_info _ _) _ fs () fs [EvLog _ _]) by done.
    rewrite (bind_run_raise (unlink p) _ fs (ENOENT_or_ENOTDIR fs p) fs [EvUnlink p])
      by (unfold unlink; by rewrite Hp).
    cbn [value disk trace].
    exists (ENOENT_or_ENOTDIR fs p). split; [| done].
    unfold ENOENT_or_ENOTDIR. by destruct (fs !! parent p) as [[c|]|].
Qed.

Lemma touches_only_refl p fs : touches_only p fs fs.
Proof. intros q _. by left. Qed.

Lemma touches_only_trans p fs fs1 fs2 :
  touches_only p fs fs1 → touches_only p fs1 fs2 → touches_only p fs fs2.
Proof.
  intros H1 H2 q Hq.
  destruct (H1 q Hq) as [E1 | (P1 & N1 & D1)], (H2 q Hq) as [E2 | (P2 & N2 & D2)].
  - left. congruence.
  - right. repeat split; congruence.
  - right. repeat split; congruence.
  - congruence.
Qed.

Lemma touches_only_bind {A B} p (m : io A) (k : A → io B) fs :
  touches_only p fs (disk (m fs)) →
  (∀ a fs', touches_only p fs' (disk (k a fs'))) →
  touches_only p fs (disk ((m ≫= k) fs)).
Proof.
  intros Hm Hk. rewrite bind_run.
  destruct (value (m fs)) as [a|e]; cbn [disk]; [| apply Hm].
  eapply touches_only_trans; [apply Hm | apply Hk].
Qed.

Lemma touches_only_mkdir p fs :
  touches_only p fs (disk (mkdir_exist_ok (parent p) fs)).
Proof.
  unfold mkdir_exist_ok.
  destruct (fs !! parent p) as [[c|]|] eqn:Hd; cbn [disk];
    try apply touches_only_refl.
  destruct (fs !! parent (parent p)) as [[c|]|]; cbn [disk];
    try apply touches_only_refl.
  intros q _. destruct (decide (q = parent p)) as [-> | Hq].
  - right. by rewrite lookup_insert_eq.
  - left. by rewrite lookup_insert_ne.
Qed.

Lemma touches_only_write p data fs :
  touches_only p fs (disk (write_text p data fs)).
Proof.
  unfold write_text.
  assert (touches_only p fs (<[p := File data]> fs)) as Hins.
  { intros q Hq. left. by rewrite lookup_insert_ne. }
  destruct (fs !! p) as [[c|]|]; cbn [disk]; try done; try apply touches_only_refl.
  destruct (fs !! parent p) as [[c|]|]; cbn [disk]; try done; apply touches_only_refl.
Qed.

Lemma touches_only_unlink p fs : touches_only p fs (disk (unlink p fs)).
Proof.
  unfold unlink.
  destruct (fs !! p) as [[c|]|]; cbn [disk]; try apply touches_only_refl.
  intros q Hq. left. by rewrite lookup_delete_ne.
Qed.

(** Listing the directory and removing it "if any entry is listed" never
    removes it. *)
Lemma cleanup_keeps_disk d fs :
  disk ((entries ← iterdir d; if any_path entries then rmdir d else mret ()) fs) = fs.
Proof.
  rewrite bind_run. unfold iterdir.
  destruct (fs !! d) as [[c|]|] eqn:Hd; cbn [value disk trace]; try done.
  destruct (children d fs) as [|x xs] eqn:Hch; cbn [any_path]; [done |].
  unfold rmdir. by rewrite Hd, Hch.
Qed.

Lemma touches_only_sync module endpoint type_data fs :
  touches_only (type_file module endpoint) fs (disk (sync module endpoint type_data fs)).
Proof.
  set (p := type_file module endpoint).
  destruct (decide (ENVIRONMENT settings = "development")) as [Hdev | Hdev].
  - rewrite sync_development_run by done. cbv zeta. fold p.
    apply touches_only_bind; [apply touches_only_refl |].
    generalize (existing_content fs p) as existing. clear fs.
    intros existing _ fs. unfold compare_and_sync. fold p.
    case_bool_decide; [| apply touches_only_refl].
    destruct type_data as [[|c r]|].
    + apply touches_only_bind; [apply touches_only_refl |].
      intros _ fs1. apply touches_only_bind; [apply touches_only_unlink |].
      intros _ fs2. rewrite cleanup_keeps_disk. apply touches_only_refl.
    + apply touches_only_bind; [apply touches_only_refl |].
      intros _ fs1. apply touches_only_bind; [apply touches_only_mkdir |].
      intros _ fs2. apply touches_only_write.
    + apply touches_only_bind; [apply touches_only_refl |].
      intros _ fs1. apply touches_only_bind; [apply touches_only_unlink |].
      intros _ fs2. rewrite cleanup_keeps_disk. apply touches_only_refl.
  - unfold _write_typescript_file. rewrite bool_decide_true by done.
    apply touches_only_refl.
Qed.

(** X12. Whatever the mode, the type data and the disk, the sync changes
    nothing but the type file itself, except that it may create the file's
    directory; in particular it never removes or replaces a directory, and
    a directory that exists before the call exists after it. *)
Theorem sync_touches_only_the_type_file
    (module endpoint : string) (type_data : option string) (fs : filesystem) :
  let p := type_file module endpoint in
  let o := sync module endpoint type_data fs in
  touches_only p fs (disk o)
  ∧ (∀ d, fs !! d = Some Dir → d ≠ p → disk o !! d = Some Dir).
Proof.
  intros p o.
  pose proof (touches_only_sync module endpoint type_data fs) as H. fold p o in H.
  split; [done |].
  intros d Hd Hne. destruct (H d Hne) as [-> | (_ & Hnone & _)]; congruence.
Qed.

Lemma template_ne_stub module endpoint :
  template_path app ≠ stub_file module endpoint
  ∧ template_path app ≠ parent (stub_file module endpoint).
Proof.
  rewrite stub_file_parent. unfold template_path, react_page_file_path.
  split; intros H; apply app_inv_head in H; discriminate.
Qed.

Lemma stub_create_run module endpoint fs :
  in_dev_environment settings = true →
  fs !! stub_file module endpoint = None →
  let p := stub_file module endpoint in
  let o := (template_file_content ← read_text (template_path app);
            mkdir_exist_ok (parent p) ;;
            write_text p template_file_content) fs in
  stub module endpoint fs
  = Outcome (value o) (disk o)
            (EvExists p
             :: EvLog "Creating new react page for this endpoint"
                      (log_fields module endpoint p)
             :: trace o).
Proof.
  intros Hdev Hp p o. rewrite stub_development_run by done. cbv zeta.
  rewrite bool_decide_false by (rewrite Hp; by intros [? ?]).
  fold p. by rewrite (bind_run_ok (log_info _ _) _ fs () fs [EvLog _ _]) by done.
Qed.

(** X13. In development mode, when no component file exists yet, the stub
    writer copies the template: if the template file can be read and the
    path can hold a file, the call returns normally, the new component
    holds the template's text (as text mode reads it), the template and
    every path other than the component and its directory are unchanged,
    and one write was issued. *)
Theorem stub_writer_copies_the_template
    (module endpoint content : string) (fs : filesystem) :
  let p := stub_file module endpoint in
  let o := stub module endpoint fs in
  in_dev_environment settings = true →
  fs !! p = None →
  fs !! template_path app = Some (File content) →
  can_hold fs p →
  value o = Ok ()
  ∧ disk o !! p = Some (File (PyStr.universal_newlines content))
  ∧ disk o !! parent p = Some Dir
  ∧ disk o !! template_path app = Some (File content)
  ∧ (∀ q, q ≠ p → q ≠ parent p → disk o !! q = fs !! q)
  ∧ count_writes (trace o) = 1.
Proof.
  intros p o Hdev Hp Ht Hhold. subst o.
  rewrite stub_create_run by done. cbv zeta. fold p.
  rewrite (bind_run_ok (read_text _) _ fs (PyStr.universal_newlines content) fs
             [EvRead (template_path app)])
    by (unfold read_text; by rewrite Ht).
  rewrite create_file_run by (done || apply stub_file_ne_parent).
  cbn [value disk trace].
  assert (∀ q, q ≠ p → q ≠ parent p →
               <[p:=File (PyStr.universal_newlines content)]>
                 (<[parent p:=Dir]> fs) !! q = fs !! q) as Hframe.
  { intros q Hq Hqd. by rewrite !lookup_insert_ne. }
  destruct (template_ne_stub module endpoint) as [Hn1 Hn2].
  repeat split.
  - apply lookup_insert_eq.
  - rewrite lookup_insert_ne
      by (intros H; symmetry in H; revert H; apply stub_file_ne_parent).
    apply lookup_insert_eq.
  - by rewrite Hframe.
  - done.
Qed.

(** X14. In development mode, when no component file exists and the
    template file cannot be read, the stub writer raises the read's
    [OSError] before creating anything: the disk is unchanged and no
    directory was made. *)
Theorem stub_writer_needs_the_template (module endpoint : string) (fs : filesystem) :
  let p := stub_file module endpoint in
  in_dev_environment settings = true →
  fs !! p = None →
  (∀ content, fs !! template_path app ≠ Some (File content)) →
  ∃ e log_line,
    is_IOError e = true
    ∧ stub module endpoint fs
      = Outcome (Raise e) fs [EvExists p; log_line; EvRead (template_path app)].
Proof.
  intros p Hdev Hp Ht.
  rewrite stub_create_run by done. cbv zeta. fold p.
  destruct (value (read_text (template_path app) fs)) as [c|e] eqn:Hread.
  { unfold read_text in Hread.
    destruct (fs !! template_path app) as [[c'|]|] eqn:Hl; try done.
    by destruct (Ht c'). }
  exists e. eexists. split; [by eapply read_text_raises_IOError |].
  rewrite (bind_run_raise (read_text _) _ fs e fs [EvRead (template_path app)]);
    [done |].
  unfold read_text in *.
  by destruct (fs !! template_path app) as [[c'|]|]; cbn in *; simplify_eq.
Qed.

Lemma trace_Forall_bind {A B} (P : event → Prop) (m : io A) (k : A → io B) fs :
  Forall P (trace (m fs)) →
  (∀ a, value (m fs) = Ok a → Forall P (trace (k a (disk (m fs))))) →
  Forall P (trace ((m ≫= k) fs)).
Proof.
  intros Hm Hk. rewrite bind_run.
  destruct (value (m fs)) as [a|e]; cbn [trace]; [| done].
  apply Forall_app. split; [done | by apply Hk].
Qed.

Lemma read_text_trace p fs : trace (read_text p fs) = [EvRead p].
Proof. unfold read_text. by destruct (fs !! p) as [[c|]|]. Qed.

Lemma mkdir_trace d fs : trace (mkdir_exist_ok d fs) = [EvMkdir d].
Proof.
  unfold mkdir_exist_ok.
  destruct (fs !! d) as [[c|]|]; try done. by destruct (fs !! parent d) as [[c|]|].
Qed.

Lemma write_text_trace p data fs : trace (write_text p data fs) = [EvWrite p data].
Proof.
  unfold write_text.
  destruct (fs !! p) as [[c|]|]; try done. by destruct (fs !! parent p) as [[c|]|].
Qed.

Lemma stub_never_removes module endpoint fs :
  Forall (λ e, is_removal e = false) (trace (stub module endpoint fs)).
Proof.
  unfold _write_react_page_file.
  destruct (in_dev_environment settings); cbn [negb]; [| constructor].
  cbv zeta. apply trace_Forall_bind; [by repeat constructor |].
  intros found _. destruct (negb found); [| constructor].
  apply trace_Forall_bind; [by repeat constructor |]. intros _ _.
  apply trace_Forall_bind; [rewrite read_text_trace; by repeat constructor |].
  intros content _.
  apply trace_Forall_bind; [rewrite mkdir_trace; by repeat constructor |].
  intros _ _. rewrite write_text_trace. by repeat constructor.
Qed.

Lemma sync_of_data_never_removes module endpoint data fs :
  data ≠ EmptyString →
  Forall (λ e, is_removal e = false)
         (trace (sync module endpoint (Some data) fs)).
Proof.
  intros Hne. unfold _write_typescript_file.
  case_bool_decide; [constructor |]. cbv zeta.
  apply trace_Forall_bind.
  { unfold try_except_IOError. rewrite bind_run.
    pose proof (read_text_trace (type_file module endpoint) fs) as Ht.
    destruct (value (read_text (type_file module endpoint) fs)) as [c|e];
      cbn [value disk trace].
    - rewrite Ht. by repeat constructor.
    - destruct (is_IOError e); cbn [trace]; rewrite Ht; by repeat constructor. }
  intros existing _. unfold compare_and_sync.
  case_bool_decide; [| constructor].
  destruct data as [|c r]; [done |].
  apply trace_Forall_bind; [by repeat constructor |]. intros _ _.
  apply trace_Forall_bind; [rewrite mkdir_trace; by repeat constructor |].
  intros _ _. rewrite write_text_trace. by repeat constructor.
Qed.

Lemma type_file_contents_nonempty imports interfaces :
  type_file_contents imports interfaces ≠ EmptyString.
Proof.
  unfold type_file_contents. cbv zeta.
  destruct (PyStr.strip _); discriminate.
Qed.

Lemma contents_run (self : render_react) fs :
  _generate_typescript_type_file_contents generate_interfaces self fs
  = match generate_interfaces (return_type self) "PageProps" true with
    | Ok r => Outcome (Ok (type_file_contents r.1 r.2)) fs []
    | Raise e => Outcome (Raise e) fs []
    end.
Proof.
  unfold _generate_typescript_type_file_contents.
  by destruct (generate_interfaces _ _ _).
Qed.

(** X15. Decoration never takes anything off the disk: for every handler,
    mode and disk, the calls [render_react.__call__] issues include no
    [unlink] and no [rmdir], because the type source it passes to the sync
    is never empty. *)
Theorem decoration_never_removes (f : view_function) (fs : filesystem) :
  Forall (λ e, is_removal e = false) (trace (decorate f fs)).
Proof.
  unfold render_react_call. cbv zeta. fold (instance_of f).
  apply trace_Forall_bind; [| intros; constructor].
  unfold _write_typescript_type_file.
  destruct (eq_NoneType _); [constructor |].
  destruct (negb _); [constructor |].
  apply trace_Forall_bind; [apply stub_never_removes |]. intros _ _.
  apply trace_Forall_bind.
  { rewrite contents_run. destruct (generate_interfaces _ _ _); constructor. }
  intros data Hdata. rewrite contents_run in Hdata.
  apply sync_of_data_never_removes.
  destruct (generate_interfaces _ _ _) as [r|e]; [| done].
  injection Hdata as <-. apply type_file_contents_nonempty.
Qed.

Lemma decorate_attrs_run (f : view_function) (fs : filesystem) :
  attrs_truthy (getattr_attrs_attrs (fn_return f)) = true →
  let self := instance_of f in
  decorate f fs
  = ((stub (module self) (name self) ;;
      type_data ← _generate_typescript_type_file_contents generate_interfaces self;
      sync (module self) (name self) (Some type_data)) ;;
     mret self) fs.
Proof.
  intros Hattrs self. unfold render_react_call. cbv zeta. fold (instance_of f).
  fold self. unfold _write_typescript_type_file.
  change (return_type self) with (fn_return f). rewrite Hattrs. cbn [negb].
  by destruct (fn_return f) as [[| |]|].
Qed.

Lemma stub_copy_run module endpoint content fs :
  in_dev_environment settings = true →
  fs !! stub_file module endpoint = None →
  fs !! template_path app = Some (File content) →
  can_hold fs (stub_file module endpoint) →
  let p := stub_file module endpoint in
  let text := PyStr.universal_newlines content in
  stub module endpoint fs
  = Outcome (Ok ()) (<[p := File text]> (<[parent p := Dir]> fs))
            [ EvExists p;
              EvLog "Creating new react page for this endpoint"
                    (log_fields module endpoint p);
              EvRead (template_path app); EvMkdir (parent p); EvWrite p text ].
Proof.
  intros Hdev Hp Ht Hhold p text.
  rewrite stub_create_run by done. cbv zeta. fold p.
  rewrite (bind_run_ok (read_text _) _ fs text fs [EvRead (template_path app)])
    by (unfold read_text; by rewrite Ht).
  by rewrite create_file_run by (done || apply stub_file_ne_parent).
Qed.

Lemma append_inv_head (n a b : string) : n +:+ a = n +:+ b → a = b.
Proof.
  induction n as [|x n IH]; [done |].
  change (String x (n +:+ a) = String x (n +:+ b) → a = b).
  intros [= H]. by apply IH.
Qed.

Lemma type_file_ne_stub_file module endpoint :
  type_file module endpoint ≠ stub_file module endpoint.
Proof.
  unfold typescript_file_path, react_page_file_path.
  intros H. apply app_inv_head in H. injection H as H.
  by apply append_inv_head in H.
Qed.

Lemma type_file_same_directory module endpoint :
  parent (type_file module endpoint) = parent (stub_file module endpoint).
Proof. by rewrite type_file_parent, stub_file_parent. Qed.

(** X16. The stub is written before the introspector runs: in development
    mode, for a handler with an attrs return type and no component file
    yet, when [generate_interfaces] raises, decoration raises the same
    error but the component stub copied from the template is already on
    disk, and the type file is as it was. *)
Theorem failed_introspection_leaves_the_stub
    (f : view_function) (content : string) (e : exn) (fs : filesystem) :
  let self := instance_of f in
  let sp := stub_file (module self) (name self) in
  let tp := type_file (module self) (name self) in
  let o := decorate f fs in
  in_dev_environment settings = true →
  attrs_truthy (getattr_attrs_attrs (fn_return f)) = true →
  fs !! sp = None →
  fs !! template_path app = Some (File content) →
  can_hold fs sp →
  generate_interfaces (fn_return f) "PageProps" true = Raise e →
  value o = Raise e
  ∧ disk o !! sp = Some (File (PyStr.universal_newlines content))
  ∧ disk o !! tp = fs !! tp.
Proof.
  intros self sp tp o Hdev Hattrs Hsp Ht Hhold Hgen. subst o.
  rewrite decorate_attrs_run by done. cbv zeta. fold self.
  rewrite bind_run.
  rewrite (bind_run_ok _ _ fs _ _ _
             (stub_copy_run (module self) (name self) content fs Hdev Hsp Ht Hhold)).
  fold sp.
  set (fs1 := <[sp:=File (PyStr.universal_newlines content)]> (<[parent sp:=Dir]> fs)).
  rewrite (bind_run_raise _ _ fs1 e fs1 [])
    by (rewrite contents_run; change (return_type self) with (fn_return f);
        by rewrite Hgen).
  cbn [value disk trace]. repeat split.
  - apply lookup_insert_eq.
  - unfold fs1. rewrite !lookup_insert_ne; [done | |].
    + unfold sp, tp. rewrite <- type_file_same_directory.
      apply type_file_ne_parent.
    + intros H. symmetry in H. revert H. apply type_file_ne_stub_file.
Qed.

(** X17. First decoration of a handler with an attrs return type: in
    development mode (both settings), with neither file on disk yet, a
    readable template and a directory that exists or can be made, when the
    introspector returns, decoration returns the instance and leaves both
    files in the module's directory: the component stub with the
    template's text and the type file with the generated source. *)
Theorem first_decoration_writes_both_files
    (f : view_function) (content : string)
    (r : ts_imports * ts_interfaces) (fs : filesystem) :
  let self := instance_of f in
  let sp := stub_file (module self) (name self) in
  let tp := type_file (module self) (name self) in
  let o := decorate f fs in
  in_dev_environment settings = true →
  ENVIRONMENT settings = "development" →
  attrs_truthy (getattr_attrs_attrs (fn_return f)) = true →
  fs !! sp = None →
  fs !! tp = None →
  fs !! template_path app = Some (File content) →
  can_hold fs sp →
  generate_interfaces (fn_return f) "PageProps" true = Ok r →
  value o = Ok self
  ∧ disk o !! sp = Some (File (PyStr.universal_newlines content))
  ∧ disk o !! tp = Some (File (type_file_contents r.1 r.2))
  ∧ disk o !! parent sp = Some Dir
  ∧ count_writes (trace o) = 2.
Proof.
  intros self sp tp o Hdev Henv Hattrs Hsp Htp Ht Hhold Hgen. subst o.
  rewrite decorate_attrs_run by done. cbv zeta. fold self.
  rewrite bind_run.
  rewrite (bind_run_ok _ _ fs _ _ _
             (stub_copy_run (module self) (name self) content fs Hdev Hsp Ht Hhold)).
  fold sp.
  set (fs1 := <[sp:=File (PyStr.universal_newlines content)]> (<[parent sp:=Dir]> fs)).
  set (data := type_file_contents r.1 r.2).
  rewrite (bind_run_ok _ _ fs1 data fs1 [])
    by (rewrite contents_run; change (return_type self) with (fn_return f);
        by rewrite Hgen).
  assert (parent tp = parent sp) as Hdir by apply type_file_same_directory.
  assert (tp ≠ sp) as Hne by apply type_file_ne_stub_file.
  assert (parent tp ≠ tp) as Hnp by apply type_file_ne_parent.
  assert (parent sp ≠ sp) as Hnsp by apply stub_file_ne_parent.
  assert (fs1 !! tp = None) as Htp1.
  { unfold fs1. rewrite !lookup_insert_ne; [done | congruence | congruence]. }
  assert (fs1 !! parent tp = Some Dir) as Hd1.
  { unfold fs1. rewrite Hdir, lookup_insert_ne by congruence. apply lookup_insert_eq. }
  rewrite sync_write_run; [| done | apply type_file_contents_nonempty |].
  2:{ unfold existing_content. fold tp. by rewrite Htp1. }
  cbv zeta. fold tp.
  rewrite create_file_run; [| done |].
  2:{ split; [by rewrite Htp1 | by left]. }
  unfold mret, io_mret, io_ret. cbn [value disk trace]. repeat split.
  - rewrite lookup_insert_ne by done.
    rewrite lookup_insert_ne by congruence. apply lookup_insert_eq.
  - apply lookup_insert_eq.
  - rewrite lookup_insert_ne by congruence. rewrite <- Hdir. apply lookup_insert_eq.
Qed.

(** Once the stub writer has returned normally in development mode, a
    component file is there. *)
Lemma stub_ok_exists module endpoint fs :
  in_dev_environment settings = true →
  value (stub module endpoint fs) = Ok () →
  is_Some (disk (stub module endpoint fs) !! stub_file module endpoint).
Proof.
  intros Hdev. rewrite stub_development_run by done. cbv zeta.
  set (p := stub_file module endpoint).
  case_bool_decide as Hex; [done |]. cbn [value disk trace]. intros Hv.
  apply bind_ok_inv in Hv as (_ & _ & Hv & ->). cbn [value disk trace] in *.
  set (fs1 := disk (log_info _ _ fs)) in *.
  apply bind_ok_inv in Hv as (content & _ & Hv & ->). cbn [value disk trace] in *.
  set (fs2 := disk (read_text _ fs1)) in *.
  apply bind_ok_inv in Hv as (_ & _ & Hw & ->). cbn [value disk trace] in *.
  rewrite (write_text_ok _ _ _ Hw). cbn [disk].
  rewrite lookup_insert_eq. by eexists.
Qed.

Lemma stub_exists_run module endpoint fs :
  is_Some (fs !! stub_file module endpoint) →
  stub module endpoint fs
  = Outcome (Ok ()) fs
            (if in_dev_environment settings
             then [EvExists (stub_file module endpoint)] else []).
Proof.
  intros Hex. destruct (in_dev_environment settings) eqn:Hdev.
  - rewrite stub_development_run by done. cbv zeta. by rewrite bool_decide_true.
  - unfold _write_react_page_file. by rewrite Hdev.
Qed.

(** Once the sync has returned normally in development mode for non-empty
    data without carriage returns, reading the type file gives the data. *)
Lemma sync_ok_content module endpoint data fs :
  ENVIRONMENT settings = "development" →
  data ≠ EmptyString →
  PyStr.has_cr data = false →
  value (sync module endpoint (Some data) fs) = Ok () →
  existing_content (disk (sync module endpoint (Some data) fs))
                   (type_file module endpoint)
  = Some data.
Proof.
  intros Hdev Hne Hcr.
  set (p := type_file module endpoint).
  destruct (decide (Some data = existing_content fs p)) as [Heq | Hdiff].
  - rewrite sync_development_run by done. cbv zeta. fold p.
    rewrite (bind_run_ok (emit (EvRead p)) _ fs () fs [EvRead p]) by done.
    unfold compare_and_sync. fold p.
    rewrite bool_decide_false by (intros H; by apply H).
    by cbn [value disk trace].
  - rewrite sync_write_run by done. cbv zeta. fold p. cbn [value disk trace].
    intros Hv. apply bind_ok_inv in Hv as (_ & _ & Hw & ->).
    cbn [value disk trace] in *.
    rewrite (write_text_ok _ _ _ Hw). cbn [disk].
    unfold existing_content. rewrite lookup_insert_eq.
    by rewrite universal_newlines_no_cr.
Qed.

Lemma sync_same_run module endpoint data fs :
  existing_content fs (type_file module endpoint) = Some data →
  sync module endpoint (Some data) fs
  = Outcome (Ok ()) fs
            (if bool_decide (ENVIRONMENT settings = "development")
             then [EvRead (type_file module endpoint)] else []).
Proof.
  intros Hex. case_bool_decide as Hdev.
  - rewrite sync_development_run by done. cbv zeta.
    set (p := type_file module endpoint) in *.
    rewrite (bind_run_ok (emit (EvRead p)) _ fs () fs [EvRead p]) by done.
    unfold compare_and_sync. fold p. rewrite Hex.
    by rewrite bool_decide_false by (intros H; by apply H).
  - unfold _write_typescript_file. by rewrite bool_decide_true.
Qed.

Lemma sync_keeps_stub module endpoint type_data fs :
  is_Some (fs !! stub_file module endpoint) →
  is_Some (disk (sync module endpoint type_data fs) !! stub_file module endpoint).
Proof.
  intros Hex.
  destruct (touches_only_sync module endpoint type_data fs
              (stub_file module endpoint)) as [-> | (_ & _ & ->)]; [| done | by eexists].
  intros H. symmetry in H. revert H. apply type_file_ne_stub_file.
Qed.

(** X18. Restarting the server changes nothing: when decorating a handler
    has returned normally, and the generated type source holds no carriage
    return, decorating the same handler again on the resulting disk returns
    the same instance, leaves the disk as it is and issues no mutating
    call (at most an existence check and a read). *)
Theorem second_decoration_changes_nothing
    (f : view_function) (self : render_react) (fs : filesystem) :
  let first := decorate f fs in
  let second := decorate f (disk first) in
  value first = Ok self →
  (∀ r, generate_interfaces (fn_return f) "PageProps" true = Ok r →
        PyStr.has_cr (type_file_contents r.1 r.2) = false) →
  value second = Ok self
  ∧ disk second = disk first
  ∧ List.filter is_mutation (trace second) = [].
Proof.
  intros first second Hfirst Hcr. subst first second.
  destruct (attrs_truthy (getattr_attrs_attrs (fn_return f))) eqn:Hattrs.
  - revert Hfirst. rewrite !decorate_attrs_run by done. cbv zeta.
    set (me := instance_of f). set (m := module me). set (n := name me).
    intros Hfirst.
    apply bind_ok_inv in Hfirst as ([] & Hinner & Hself & ->).
    cbn [value disk trace] in *.
    apply bind_ok_inv in Hinner as ([] & Hstub & Hrest & ->).
    cbn [value disk trace] in *.
    set (fs1 := disk (stub m n fs)) in *.
    apply bind_ok_inv in Hrest as (data & Hdata & Hsync & ->).
    cbn [value disk trace] in *.
    rewrite contents_run in Hdata, Hsync |- *.
    change (return_type me) with (fn_return f) in *.
    destruct (generate_interfaces (fn_return f) "PageProps" true) as [r|e] eqn:Hgen;
      [| done].
    cbn [value disk trace] in *. injection Hdata as <-.
    set (data := type_file_contents r.1 r.2) in *.
    set (fs2 := disk (sync m n (Some data) fs1)) in *.
    assert (data ≠ EmptyString) as Hne by apply type_file_contents_nonempty.
    assert (is_Some (fs2 !! stub_file m n)
            ∨ in_dev_environment settings = false) as Hstub2.
    { destruct (in_dev_environment settings) eqn:Hdev; [left | by right].
      apply sync_keeps_stub. by apply stub_ok_exists. }
    assert (stub m n fs2
            = Outcome (Ok ()) fs2
                (if in_dev_environment settings then [EvExists (stub_file m n)] else []))
      as Hstub_run.
    { destruct Hstub2 as [Hex | Hdev]; [by apply stub_exists_run |].
      unfold _write_react_page_file. by rewrite Hdev. }
    assert (sync m n (Some data) fs2
            = Outcome (Ok ()) fs2
                (if bool_decide (ENVIRONMENT settings = "development")
                 then [EvRead (type_file m n)] else []))
      as Hsync_run.
    { case_bool_decide as Henv.
      - pose proof (sync_ok_content m n data fs1 Henv Hne (Hcr r eq_refl) Hsync) as Hc.
        fold fs2 in Hc. rewrite (sync_same_run m n data fs2 Hc).
        by rewrite bool_decide_true.
      - unfold _write_typescript_file. by rewrite bool_decide_true. }
    rewrite bind_run.
    rewrite (bind_run_ok _ _ fs2 _ _ _ Hstub_run).
    rewrite (bind_run_ok _ _ fs2 data fs2 [])
      by (rewrite contents_run; change (return_type me) with (fn_return f);
          by rewrite Hgen).
    rewrite Hsync_run. cbn [value disk trace].
    unfold mret, io_mret, io_ret in *. cbn [value disk trace] in *.
    repeat split; [done |].
    destruct (in_dev_environment settings), (bool_decide _); reflexivity.
  - revert Hfirst. unfold render_react_call, _write_typescript_type_file. cbv zeta.
    cbn [return_type]. rewrite Hattrs. cbn [negb].
    destruct (eq_NoneType (fn_return f)); [| done].
    intros Hfirst. cbn in Hfirst |- *. done.
Qed.

Lemma cleanup_run d fs :
  fs !! d = Some Dir →
  (entries ← iterdir d; if any_path entries then rmdir d else mret ()) fs
  = match children d fs with
    | [] => Outcome (Ok ()) fs [EvIterdir d]
    | _ :: _ => Outcome (Raise OSError_ENOTEMPTY) fs [EvIterdir d; EvRmdir d]
    end.
Proof.
  intros Hd. rewrite bind_run. unfold iterdir. rewrite Hd. cbn [value disk trace].
  destruct (children d fs) as [|x xs] eqn:Hch; cbn [any_path]; [done |].
  unfold rmdir. by rewrite Hd, Hch.
Qed.

(** X20. Removal, as the code performs it: in development mode, with the
    type file on disk in an existing directory and [None] as type data, the
    sync deletes the file and nothing else, so the directory stays; it
    returns normally exactly when no other entry is left in the directory,
    and otherwise raises the [OSError] of [rmdir] on a non-empty
    directory. *)
Theorem sync_removal_keeps_the_directory
    (module endpoint content : string) (fs : filesystem) :
  let p := type_file module endpoint in
  let o := sync module endpoint None fs in
  ENVIRONMENT settings = "development" →
  fs !! p = Some (File content) →
  fs !! parent p = Some Dir →
  disk o = delete p fs
  ∧ disk o !! p = None
  ∧ disk o !! parent p = Some Dir
  ∧ (value o = Ok () ↔ children (parent p) (delete p fs) = [])
  ∧ (value o = Ok () ∨ value o = Raise OSError_ENOTEMPTY).
Proof.
  intros p o Hdev Hp Hd. subst o.
  rewrite sync_development_run by done. cbv zeta. fold p.
  rewrite (bind_run_ok (emit (EvRead p)) _ fs () fs [EvRead p]) by done.
  unfold compare_and_sync. fold p.
  rewrite bool_decide_true by (unfold existing_content; by rewrite Hp).
  rewrite (bind_run_ok (log_info _ _) _ fs () fs [EvLog _ _]) by done.
  rewrite (bind_run_ok (unlink p) _ fs () (delete p fs) [EvUnlink p])
    by (unfold unlink; by rewrite Hp).
  assert (delete p fs !! parent p = Some Dir) as Hd'.
  { rewrite lookup_delete_ne; [done |].
    intros H. symmetry in H. revert H. apply type_file_ne_parent. }
  rewrite (cleanup_run _ _ Hd'). cbn [value disk trace].
  destruct (children (parent p) (delete p fs)) as [|x xs]; cbn [value disk trace].
  - repeat split; try done; [apply lookup_delete_eq | by left].
  - repeat split; try done; [apply lookup_delete_eq | by right].
Qed.

(** X21. Outside development mode decoration still checks the handler: for
    an attrs return type it runs the introspector and returns the instance,
    or raises what the introspector raised, and in both cases makes no
    filesystem call and leaves the disk alone. *)
Theorem decoration_outside_development (f : view_function) (fs : filesystem) :
  not_development settings →
  attrs_truthy (getattr_attrs_attrs (fn_return f)) = true →
  decorate f fs
  = match generate_interfaces (fn_return f) "PageProps" true with
    | Ok _ => Outcome (Ok (instance_of f)) fs []
    | Raise e => Outcome (Raise e) fs []
    end.
Proof.
  intros [Henv Hdev] Hattrs.
  rewrite decorate_attrs_run by done. cbv zeta.
  set (self := instance_of f).
  assert (stub (module self) (name self) fs = Outcome (Ok ()) fs []) as Hstub.
  { unfold _write_react_page_file. by rewrite Hdev. }
  rewrite bind_run. rewrite (bind_run_ok _ _ fs _ _ _ Hstub).
  rewrite (bind_run (_generate_typescript_type_file_contents _ _)).
  rewrite contents_run. change (return_type self) with (fn_return f).
  destruct (generate_interfaces (fn_return f) "PageProps" true) as [r|e];
    cbn [value disk trace]; [| done].
  unfold _write_typescript_file. by rewrite bool_decide_true.
Qed.

End Files.

(** ** The further properties at concrete inputs *)

Section MoreConcrete.
Import Fs Py Renderer Claims Observations Examples MoreExamples.

Lemma template_directory_witness :
  PyStr.split_dot (join_dot ("src" :: "views" :: ["admin"; "users"]))
  = "src" :: "views" :: ["admin"; "users"]
  ∧ PyStr.join_slash (drop 2 (PyStr.split_dot
                                (join_dot ("src" :: "views" :: ["admin"; "users"]))))
    = PyStr.join_slash ["admin"; "users"]
  ∧ PyStr.join_slash (drop 2 (PyStr.split_dot (join_dot ["src"; "views"])))
    = EmptyString
  ∧ PyStr.join_slash (drop 2 (PyStr.split_dot "src")) = EmptyString.
Proof.
  apply (template_directory_drops_two_packages "src" "views" ["admin"; "users"]).
  by repeat constructor.
Defined.

Lemma module_is_last_component_witness :
  PyStr.re_sub_upto_last_dot (join_dot (["src"; "views"] ++ ["home"])) = "home".
Proof.
  apply (module_is_last_component ["src"; "views"] "home").
  by repeat constructor.
Defined.

Lemma type_file_layout_witness :
  type_file_contents (TsImports true "import { Widget } from './widget';")
                     (TsInterfaces interface_text)
  = generated_header +:+ NL +:+ NL
    +:+ (if imports_truthy (TsImports true "import { Widget } from './widget';")
         then imports_render (TsImports true "import { Widget } from './widget';")
              +:+ NL
         else EmptyString)
    +:+ interfaces_render (TsInterfaces interface_text) +:+ NL.
Proof.
  apply (type_file_layout (TsImports true "import { Widget } from './widget';")
           (TsInterfaces interface_text)).
  - vm_compute. reflexivity.
  - discriminate.
Defined.

Lemma type_file_ignores_trailing_space_witness :
  type_file_contents (TsImports false "")
                     (TsInterfaces (interface_text +:+ (NL +:+ " " +:+ NL)))
  = type_file_contents (TsImports false "") (TsInterfaces interface_text)
  ∧ (imports_truthy (TsImports false "") = false →
     type_file_contents (TsImports false "") (TsInterfaces (NL +:+ " " +:+ NL))
     = generated_header +:+ NL).
Proof.
  apply (type_file_ignores_trailing_space (TsImports false "") interface_text
           (NL +:+ " " +:+ NL)).
  vm_compute. reflexivity.
Defined.

Lemma render_html_renders_a_dict_witness :
  render_html_wrapped development render_template None listing no_context fresh_disk
  = Outcome (Ok (html_response "<html>/home/index.jinja2</html>"))
            (disk (fn_call listing no_context fresh_disk))
            (trace (fn_call listing no_context fresh_disk)
             ++ [EvLog ("Looking for " +:+ "/home/index.jinja2" +:+ "...") [];
                 EvRender "/home/index.jinja2"]).
Proof.
  apply (render_html_renders_a_dict development render_template None listing
           no_context fresh_disk listing_items "home" "home.index"
           "<html>/home/index.jinja2</html>").
  - reflexivity.
  - reflexivity.
  - reflexivity.
  - apply (bool_decide_unpack _). vm_compute. reflexivity.
  - reflexivity.
Defined.

Lemma render_html_rejects_reserved_keyword_witness :
  ∃ msg log_line,
    render_html_wrapped development render_template None clashing no_context fresh_disk
    = Outcome (Raise (TypeError msg))
              (disk (fn_call clashing no_context fresh_disk))
              (trace (fn_call clashing no_context fresh_disk) ++ [EvLog log_line []]).
Proof.
  apply (render_html_rejects_reserved_keyword development render_template None
           clashing no_context fresh_disk clashing_items "home" "home.index" "html_id").
  - reflexivity.
  - reflexivity.
  - reflexivity.
  - apply (bool_decide_unpack _). vm_compute. reflexivity.
  - apply (bool_decide_unpack _). vm_compute. reflexivity.
Defined.

Lemma render_react_renders_the_host_template_witness :
  NoDup ([("__render_react_response", props_value); ("props", props_value)]
         ++ base_context development "home" "home.index"
         ++ react_context preferences_instance (PyDict [])).*1
  ∧ render_react_wrapped development render_template unstructure (PyDict [])
      preferences_instance no_context fresh_disk
    = Outcome (Ok (html_response "<html>render_react.jinja2</html>"))
              (disk (fn_call (view preferences_instance) no_context fresh_disk))
              (trace (fn_call (view preferences_instance) no_context fresh_disk)
               ++ [EvRender (template preferences_instance)]).
Proof.
  apply (render_react_renders_the_host_template development render_template
           unstructure (PyDict []) preferences_instance no_context fresh_disk
           props_value props_value "home" "home.index"
           "<html>render_react.jinja2</html>"); reflexivity.
Defined.

Lemma sync_writes_the_type_data_witness :
  let p := typescript_file_path app "home" "index" in
  let o := _write_typescript_file development app "home" "index"
             (Some interface_text) fresh_disk in
  value o = Ok ()
  ∧ disk o !! p = Some (File interface_text)
  ∧ disk o !! parent p = Some Dir
  ∧ (∀ q, q ≠ p → q ≠ parent p → disk o !! q = fresh_disk !! q)
  ∧ count_writes (trace o) = 1.
Proof.
  apply (sync_writes_the_type_data development app "home" "index" interface_text
           fresh_disk).
  - reflexivity.
  - discriminate.
  - vm_compute. discriminate.
  - split; [vm_compute; discriminate | right; split; vm_compute; reflexivity].
Defined.


Lemma sync_on_absent_file_witness :
  let p := typescript_file_path app "home" "index" in
  _write_typescript_file development app "home" "index" None fresh_disk
  = Outcome (Ok ()) fresh_disk [EvRead p]
  ∧ ∃ e, is_IOError e = true
         ∧ value (_write_typescript_file development app "home" "index"
                    (Some EmptyString) fresh_disk) = Raise e
         ∧ disk (_write_typescript_file development app "home" "index"
                   (Some EmptyString) fresh_disk) = fresh_disk.
Proof.
  apply (sync_on_absent_file development app "home" "index" fresh_disk).
  - reflexivity.
  - vm_compute. reflexivity.
Defined.

Lemma stub_writer_copies_the_template_witness :
  let p := react_page_file_path app "home" "index" in
  let o := _write_react_page_file development app "home" "index" fresh_disk in
  value o = Ok ()
  ∧ disk o !! p
    = Some (File (PyStr.universal_newlines
                    "export default function Page() { return null; }"))
  ∧ disk o !! parent p = Some Dir
  ∧ disk o !! template_path app
    = Some (File "export default function Page() { return null; }")
  ∧ (∀ q, q ≠ p → q ≠ parent p → disk o !! q = fresh_disk !! q)
  ∧ count_writes (trace o) = 1.
Proof.
  apply (stub_writer_copies_the_template development app "home" "index"
           "export default function Page() { return null; }" fresh_disk).
  - reflexivity.
  - vm_compute. reflexivity.
  - vm_compute. reflexivity.
  - split; [vm_compute; discriminate | right; split; vm_compute; reflexivity].
Defined.

Lemma stub_writer_needs_the_template_witness :
  let p := react_page_file_path app "home" "index" in
  ∃ e log_line,
    is_IOError e = true
    ∧ _write_react_page_file development app "home" "index" disk_without_template
      = Outcome (Raise e) disk_without_template
                [EvExists p; log_line; EvRead (template_path app)].
Proof.
  apply (stub_writer_needs_the_template development app "home" "index"
           disk_without_template).
  - reflexivity.
  - vm_compute. reflexivity.
  - intros content. vm_compute. discriminate.
Defined.

Lemma failed_introspection_leaves_the_stub_witness :
  let self := instance_of preferences in
  let sp := react_page_file_path app (module self) (name self) in
  let tp := typescript_file_path app (module self) (name self) in
  let o := render_react_call development app failing_interfaces preferences fresh_disk in
  value o = Raise (ExternalError "cannot reflect")
  ∧ disk o !! sp
    = Some (File (PyStr.universal_newlines
                    "export default function Page() { return null; }"))
  ∧ disk o !! tp = fresh_disk !! tp.
Proof.
  apply (failed_introspection_leaves_the_stub development app failing_interfaces
           preferences "export default function Page() { return null; }"
           (ExternalError "cannot reflect") fresh_disk).
  - reflexivity.
  - reflexivity.
  - vm_compute. reflexivity.
  - vm_compute. reflexivity.
  - split; [vm_compute; discriminate | right; split; vm_compute; reflexivity].
  - reflexivity.
Defined.

Lemma first_decoration_writes_both_files_witness :
  let r := (TsImports false "",
            TsInterfaces ("export default interface PageProps {" +:+ NL
                          +:+ "  max_widgets: number;" +:+ NL +:+ "}" +:+ NL)) in
  let self := instance_of preferences in
  let sp := react_page_file_path app (module self) (name self) in
  let tp := typescript_file_path app (module self) (name self) in
  let o := render_react_call development app generate_interfaces preferences fresh_disk in
  value o = Ok self
  ∧ disk o !! sp
    = Some (File (PyStr.universal_newlines
                    "export default function Page() { return null; }"))
  ∧ disk o !! tp = Some (File (type_file_contents r.1 r.2))
  ∧ disk o !! parent sp = Some Dir
  ∧ count_writes (trace o) = 2.
Proof.
  apply (first_decoration_writes_both_files development app generate_interfaces
           preferences "export default function Page() { return null; }"
           (TsImports false "",
            TsInterfaces ("export default interface PageProps {" +:+ NL
                          +:+ "  max_widgets: number;" +:+ NL +:+ "}" +:+ NL))
           fresh_disk).
  - reflexivity.
  - reflexivity.
  - reflexivity.
  - vm_compute. reflexivity.
  - vm_compute. reflexivity.
  - vm_compute. reflexivity.
  - split; [vm_compute; discriminate | right; split; vm_compute; reflexivity].
  - reflexivity.
Defined.

Lemma second_decoration_changes_nothing_witness :
  let first := render_react_call development app generate_interfaces preferences
                 fresh_disk in
  let second := render_react_call development app generate_interfaces preferences
                  (disk first) in
  value first = Ok (instance_of preferences)
  ∧ value second = Ok (instance_of preferences)
  ∧ disk second = disk first
  ∧ List.filter is_mutation (trace second) = [].
Proof.
  cbv zeta. split; [vm_compute; reflexivity |].
  apply (second_decoration_changes_nothing development app generate_interfaces
           preferences (instance_of preferences) fresh_disk).
  - vm_compute. reflexivity.
  - intros r H. vm_compute in H. injection H as <-. vm_compute. reflexivity.
Defined.

Lemma base_context_has_no_dots_witness :
  ∃ cls id,
    _build_render_context_for_base_template development no_context fresh_disk
    = Outcome (Ok [ ("html_classes", PyList [PyStr cls]); ("html_id", PyStr id);
                    ("is_development", PyBool (in_dev_environment development)) ])
              fresh_disk []
    ∧ cls = "blueprint-" +:+ replace_dot_dash "home"
    ∧ id = "endpoint-" +:+ replace_dot_dash "home.index"
    ∧ has_dot cls = false
    ∧ has_dot id = false.
Proof.
  apply (base_context_has_no_dots development no_context "home" "home.index"
           fresh_disk); reflexivity.
Defined.

Lemma sync_removal_keeps_the_directory_witness :
  let p := typescript_file_path app "home" "index" in
  let o := _write_typescript_file development app "home" "index" None
             stale_disk_with_component in
  disk o = delete p stale_disk_with_component
  ∧ disk o !! p = None
  ∧ disk o !! parent p = Some Dir
  ∧ (value o = Ok () ↔ children (parent p) (delete p stale_disk_with_component) = [])
  ∧ (value o = Ok () ∨ value o = Raise OSError_ENOTEMPTY).
Proof.
  apply (sync_removal_keeps_the_directory development app "home" "index"
           "export default interface PageProps {}" stale_disk_with_component).
  - reflexivity.
  - vm_compute. reflexivity.
  - vm_compute. reflexivity.
Defined.

Lemma decoration_outside_development_witness :
  render_react_call production app generate_interfaces preferences fresh_disk
  = match generate_interfaces (fn_return preferences) "PageProps" true with
    | Ok _ => Outcome (Ok (instance_of preferences)) fresh_disk []
    | Raise e => Outcome (Raise e) fresh_disk []
    end.
Proof.
  apply (decoration_outside_development production app generate_interfaces
           preferences fresh_disk).
  - split; [discriminate | reflexivity].
  - reflexivity.
Defined.

End MoreConcrete.
